(** * tradepilot-quantum-flow: the profit-accrual hook and the verification widget

    A shallow embedding of [src/hooks/useProfitGeneration.tsx] and of the
    [RecaptchaWrapper] component.  The hook is asynchronous code talking to a
    remote backend; it is embedded in a state-and-exception monad over a
    [World] that holds the wall clock, the outcome of every remote call still
    to come, the backend tables and the hook's [lastProfitCheckRef].  Every
    run also yields the list of observable events it produced, in order:
    remote requests, toasts and console output. *)

From Stdlib Require Import ZArith List String Ascii Bool Lia DecimalString.
From Stdlib Require Import Floats.PrimFloat Floats.FloatOps Floats.SpecFloat.
Import ListNotations.

Local Open Scope string_scope.
Local Open Scope Z_scope.

(** ** JavaScript [Date]

    A [Date] is its time value: milliseconds since the epoch, UTC, or no
    time value at all (an Invalid Date, [None]).  Local time is UTC shifted by
    the offset that the browser's time zone has at that instant. *)

Module JSDate.

Definition msPerDay : Z := 86400000.
Definition msPerHour : Z := 3600000.
Definition msPerMinute : Z := 60000.

Definition Day (t : Z) : Z := t / msPerDay.
Definition TimeWithinDay (t : Z) : Z := t mod msPerDay.
Definition HourFromTime (t : Z) : Z := (t / msPerHour) mod 24.
Definition MinFromTime (t : Z) : Z := (t / msPerMinute) mod 60.
Definition WeekDay (t : Z) : Z := (Day t + 4) mod 7.

(** Year, month (1..12) and day of the month (1..31) of a day number in the
    proleptic Gregorian calendar. *)
Definition civil_from_days (z : Z) : Z * Z * Z :=
  let z := z + 719468 in
  let era := z / 146097 in
  let doe := z - era * 146097 in
  let yoe := (doe - doe / 1460 + doe / 36524 - doe / 146096) / 365 in
  let doy := doe - (365 * yoe + yoe / 4 - yoe / 100) in
  let mp := (5 * doy + 2) / 153 in
  let d := doy - (153 * mp + 2) / 5 + 1 in
  let m := if mp <? 10 then mp + 3 else mp - 9 in
  let y := yoe + era * 400 in
  (if m <=? 2 then y + 1 else y, m, d).

Definition YearFromTime (t : Z) : Z := fst (fst (civil_from_days (Day t))).
Definition MonthFromTime (t : Z) : Z := snd (fst (civil_from_days (Day t))).
Definition DateFromTime (t : Z) : Z := snd (civil_from_days (Day t)).

(** A time zone (ECMAScript's LocalTZA): the offset from UTC, in
    milliseconds, that holds at a UTC instant, and the offset by which a local
    time value is read as an instant.  Where the clocks are changed the two
    differ: a local time can come twice or not at all, and the runtime picks
    the offset. *)
Record Zone := {
  offset_at : Z -> Z;
  offset_of_local : Z -> Z }.

(** A zone whose clocks are never changed. *)
Definition fixed (offset : Z) : Zone :=
  {| offset_at := fun _ => offset; offset_of_local := fun _ => offset |}.

Definition LocalTime (tza : Zone) (t : Z) : Z := t + offset_at tza t.
Definition UTC (tza : Zone) (t : Z) : Z := t - offset_of_local tza t.

(** Time values reach 100,000,000 days to either side of the epoch. *)
Definition TimeClip (t : Z) : option Z :=
  if Z.abs t <=? 8640000000000000 then Some t else None.

Definition getHours (tza : Zone) (t : Z) : Z := HourFromTime (LocalTime tza t).
Definition getMinutes (tza : Zone) (t : Z) : Z := MinFromTime (LocalTime tza t).
Definition getDate (tza : Zone) (t : Z) : Z := DateFromTime (LocalTime tza t).


(** [d.setDate(dt)]: MakeDay takes the day number of the first of the month
    of [d] and adds [dt - 1] to it, so a day of the month outside the month
    runs over into the neighbouring months; the local time within the day is
    kept, the local time value is read as an instant, and TimeClip makes the
    date invalid when that is out of range. *)
Definition setDate (tza : Zone) (t dt : Z) : option Z :=
  let lt := LocalTime tza t in
  let first_of_month := Day lt - (DateFromTime lt - 1) in
  TimeClip (UTC tza ((first_of_month + dt - 1) * msPerDay + TimeWithinDay lt)).

Definition decimal (n : Z) : string := NilZero.string_of_uint (N.to_uint (Z.to_N n)).

Definition padded (width : nat) (n : Z) : string :=
  let s := decimal n in
  append (string_of_list_ascii (repeat "0"%char (width - String.length s))) s.

Definition day_name (wd : Z) : string :=
  nth (Z.to_nat wd) ["Sun"; "Mon"; "Tue"; "Wed"; "Thu"; "Fri"; "Sat"] EmptyString.

Definition month_name (m : Z) : string :=
  nth (Z.to_nat (m - 1))
    ["Jan"; "Feb"; "Mar"; "Apr"; "May"; "Jun"; "Jul"; "Aug"; "Sep"; "Oct"; "Nov"; "Dec"] EmptyString.

(** The date string of a local time value: ["Mon Nov 02 2026"]. *)
Definition DateString (lt : Z) : string :=
  let y := YearFromTime lt in
  day_name (WeekDay lt) ++ " " ++ month_name (MonthFromTime lt) ++ " "
  ++ padded 2 (DateFromTime lt) ++ " "
  ++ (if y <? 0 then "-" else EmptyString) ++ padded 4 (Z.abs y).

Definition toDateString (tza : Zone) (t : Z) : string := DateString (LocalTime tza t).

End JSDate.

(** ** Data model: the rows of the backend tables

    JavaScript numbers are IEEE 754 binary64 values: [float].  Timestamps are
    kept as time values; [toISOString] and [new Date(iso)] are inverse to each
    other on them. *)

Module Plan.
Record t := {
  id : string;
  name : string;
  duration_days : Z;
  daily_profit_percentage : float }.
End Plan.

Module Investment.
Record t := {
  id : string;
  user_id : string;
  plan_id : string;
  amount : float;
  start_date : Z;
  end_date : Z;
  is_active : bool;
  profit_earned : float }.
End Investment.

(** The object passed to [insert]: a row without its [id]. *)
Module NewInvestment.
Record t := {
  user_id : string;
  plan_id : string;
  amount : float;
  start_date : Z;
  end_date : Z;
  is_active : bool;
  profit_earned : float }.
End NewInvestment.

(** A row of a select that embeds [investment_plans]: the investment with
    the plan its [plan_id] refers to, [None] (JavaScript [null]) when it
    refers to none. *)
Record InvestmentWithPlan := {
  investment :> Investment.t;
  investment_plans : option Plan.t }.

Module Recaptcha.
Record t := {
  site_key : string;
  is_enabled : bool }.
End Recaptcha.

Module Notification.
Record t := {
  p_user_id : string;
  p_title : string;
  p_message : string;
  p_type : string }.
End Notification.

Inductive JsError :=
| PostgrestError (message : string)
| TypeError (message : string)
| RangeError (message : string).

(** The [{ data, error }] object a remote call resolves to. *)
Inductive Response (A : Type) :=
| Failed (error : JsError)
| Data (data : A).
Arguments Failed {A} error.
Arguments Data {A} data.

Inductive BalanceOperation := add | remove.

(** The two [update] payloads of the hook: [{ is_active }] and
    [{ profit_earned }]. *)
Inductive InvestmentUpdate :=
| SetIsActive (is_active : bool)
| SetProfitEarned (profit_earned : float).

Inductive Request :=
| SelectPlan (id : string)
| InsertInvestment (row : NewInvestment.t)
| UpdateUserBalance (p_user_id : string) (p_amount : float) (p_operation : BalanceOperation)
| SelectInvestment (id : string)
| UpdateInvestment (id : string) (payload : InvestmentUpdate)
| SendUserNotification (n : Notification.t)
| SelectActiveInvestments (now : Z)
| SelectRecaptchaSettings.

Inductive Variant := default | destructive.

Record ToastMessage := {
  title : string;
  description : string;
  variant : Variant }.

(** What a run of the client shows to the outside, in the order it happens. *)
Inductive Event :=
| Remote (r : Request)
| Toast (t : ToastMessage)
| ConsoleError (label : string) (e : JsError)
| ConsoleLog (message : string).

(** ** The backend and the world around the client *)

Record Backend := {
  investment_plans_table : list Plan.t;
  user_investments : list Investment.t;
  balances : string -> float;
  notifications : list Notification.t;
  recaptcha_settings : list Recaptcha.t }.

(** How one remote call ends: the wall clock has moved by [elapsed]
    milliseconds when it resolves, and it resolves to an error when [failure]
    holds one.  A failed call leaves the backend as it was. *)
Record Reply := {
  elapsed : Z;
  failure : option JsError }.

(** The wall clock, the reply the network gives to the [n]-th remote call,
    the number of calls made so far, the backend, and the ref in which the
    hook keeps the date string of the day it last fired ([None] is [null], its
    value after a page load). *)
Record World := {
  clock : Z;
  network : nat -> Reply;
  sent : nat;
  backend : Backend;
  lastProfitCheckRef : option string }.

Definition with_backend (b : Backend) (w : World) : World :=
  {| clock := clock w; network := network w; sent := sent w;
     backend := b; lastProfitCheckRef := lastProfitCheckRef w |}.

Definition with_lastProfitCheckRef (r : option string) (w : World) : World :=
  {| clock := clock w; network := network w; sent := sent w;
     backend := backend w; lastProfitCheckRef := r |}.

Definition with_clock (t : Z) (w : World) : World :=
  {| clock := t; network := network w; sent := sent w;
     backend := backend w; lastProfitCheckRef := lastProfitCheckRef w |}.

Definition replied (w : World) : World :=
  {| clock := clock w + elapsed (network w (sent w)); network := network w;
     sent := S (sent w); backend := backend w;
     lastProfitCheckRef := lastProfitCheckRef w |}.

(** ** The monad of the client code *)

Inductive Result (A : Type) :=
| Returned (a : A)
| Thrown (e : JsError).
Arguments Returned {A} a.
Arguments Thrown {A} e.

Definition M (A : Type) : Type := World -> Result A * World * list Event.

Definition ret {A} (a : A) : M A := fun w => (Returned a, w, []).

Definition bind {A B} (m : M A) (k : A -> M B) : M B :=
  fun w =>
    match m w with
    | (Returned a, w1, tr1) =>
        match k a w1 with
        | (r, w2, tr2) => (r, w2, (tr1 ++ tr2)%list)
        end
    | (Thrown e, w1, tr1) => (Thrown e, w1, tr1)
    end.

Definition throw {A} (e : JsError) : M A := fun w => (Thrown e, w, []).

Definition try_catch {A} (body : M A) (handler : JsError -> M A) : M A :=
  fun w =>
    match body w with
    | (Returned a, w1, tr1) => (Returned a, w1, tr1)
    | (Thrown e, w1, tr1) =>
        match handler e w1 with
        | (r, w2, tr2) => (r, w2, (tr1 ++ tr2)%list)
        end
    end.

Definition emit (e : Event) : M unit := fun w => (Returned tt, w, [e]).

Declare Scope js_scope.
Delimit Scope js_scope with js.
Notation "x <- m ;; k" := (bind m (fun x => k))
  (at level 100, m at next level, right associativity) : js_scope.
Notation "m ;; k" := (bind m (fun _ => k))
  (at level 100, right associativity) : js_scope.
Local Open Scope js_scope.

(** [const { data, error } = await ...; if (error) throw error;] *)
Definition or_throw {A} (m : M (Response A)) : M A :=
  r <- m ;;
  match r with
  | Failed error => throw error
  | Data data => ret data
  end.

(** [new Date()]: what the clock shows. *)
Definition new_Date : M Z := fun w => (Returned (clock w), w, []).

(** [date.toISOString()] throws a [RangeError] for an Invalid Date. *)
Definition toISOString (date : option Z) : M Z :=
  match date with
  | Some t => ret t
  | None => throw (RangeError "Invalid time value")
  end.

Definition toast (t : ToastMessage) : M unit := emit (Toast t).
Definition console_error (label : string) (e : JsError) : M unit := emit (ConsoleError label e).
Definition console_log (message : string) : M unit := emit (ConsoleLog message).

(** One awaited call to the backend: the request goes out, the reply of the
    network decides whether it fails, and otherwise the backend serves it. *)
Definition remote {A} (req : Request) (serve : Backend -> Response A * Backend)
  : M (Response A) :=
  fun w =>
    match failure (network w (sent w)) with
    | Some e => (Returned (Failed e), replied w, [Remote req])
    | None =>
        let (resp, b) := serve (backend w) in
        (Returned resp, with_backend b (replied w), [Remote req])
    end.

(** [.single()]: exactly one row, or an error. *)
Definition single {A} (rows : list A) : Response A :=
  match rows with
  | [row] => Data row
  | _ => Failed (PostgrestError "JSON object requested, multiple (or no) rows returned")
  end.

Section Client.

(** The browser's time zone, the id the database gives to a new
    [user_investments] row, what the clock shows at a second read when it
    showed [t] at the read just before, and [Number.prototype.toFixed]. *)
Variable LocalTZA : JSDate.Zone.
Variable gen_id : list Investment.t -> string.
Variable later : Z -> Z.
Variable toFixed : float -> Z -> string.

(** *** What the backend does with each request *)

Definition serve_select_plan (planId : string) (b : Backend) : Response Plan.t * Backend :=
  (single (filter (fun p => (Plan.id p =? planId)%string) (investment_plans_table b)), b).

Definition stored (b : Backend) (r : NewInvestment.t) : Investment.t :=
  {| Investment.id := gen_id (user_investments b);
     Investment.user_id := NewInvestment.user_id r;
     Investment.plan_id := NewInvestment.plan_id r;
     Investment.amount := NewInvestment.amount r;
     Investment.start_date := NewInvestment.start_date r;
     Investment.end_date := NewInvestment.end_date r;
     Investment.is_active := NewInvestment.is_active r;
     Investment.profit_earned := NewInvestment.profit_earned r |}.

Definition serve_insert_investment (r : NewInvestment.t) (b : Backend)
  : Response Investment.t * Backend :=
  (Data (stored b r),
   {| investment_plans_table := investment_plans_table b;
      user_investments := (user_investments b ++ [stored b r])%list;
      balances := balances b;
      notifications := notifications b;
      recaptcha_settings := recaptcha_settings b |}).

(** Modelled from the spec: the stored procedure [update_user_balance], which
    is not part of the client; [add] credits the amount to the balance of the
    user and [remove] debits it. *)
Definition serve_update_user_balance (user : string) (amt : float) (op : BalanceOperation)
  (b : Backend) : Response unit * Backend :=
  (Data tt,
   {| investment_plans_table := investment_plans_table b;
      user_investments := user_investments b;
      balances := fun u =>
        if (u =? user)%string
        then match op with
             | add => (balances b u + amt)%float
             | remove => (balances b u - amt)%float
             end
        else balances b u;
      notifications := notifications b;
      recaptcha_settings := recaptcha_settings b |}).

(** Modelled from the spec: the stored procedure [send_user_notification],
    which is not part of the client; it files the notification for the user. *)
Definition serve_send_user_notification (n : Notification.t) (b : Backend)
  : Response unit * Backend :=
  (Data tt,
   {| investment_plans_table := investment_plans_table b;
      user_investments := user_investments b;
      balances := balances b;
      notifications := (notifications b ++ [n])%list;
      recaptcha_settings := recaptcha_settings b |}).

Definition embed_plan (b : Backend) (i : Investment.t) : InvestmentWithPlan :=
  {| investment := i;
     investment_plans :=
       find (fun p => (Plan.id p =? Investment.plan_id i)%string) (investment_plans_table b) |}.

Definition serve_select_investment (investmentId : string) (b : Backend)
  : Response InvestmentWithPlan * Backend :=
  (single (map (embed_plan b)
     (filter (fun i => (Investment.id i =? investmentId)%string) (user_investments b))), b).

Definition apply_update (u : InvestmentUpdate) (i : Investment.t) : Investment.t :=
  {| Investment.id := Investment.id i;
     Investment.user_id := Investment.user_id i;
     Investment.plan_id := Investment.plan_id i;
     Investment.amount := Investment.amount i;
     Investment.start_date := Investment.start_date i;
     Investment.end_date := Investment.end_date i;
     Investment.is_active :=
       match u with SetIsActive a => a | SetProfitEarned _ => Investment.is_active i end;
     Investment.profit_earned :=
       match u with SetIsActive _ => Investment.profit_earned i | SetProfitEarned p => p end |}.

Definition serve_update_investment (investmentId : string) (u : InvestmentUpdate)
  (b : Backend) : Response unit * Backend :=
  (Data tt,
   {| investment_plans_table := investment_plans_table b;
      user_investments :=
        map (fun i => if (Investment.id i =? investmentId)%string then apply_update u i else i)
          (user_investments b);
      balances := balances b;
      notifications := notifications b;
      recaptcha_settings := recaptcha_settings b |}).

(** The rows with [is_active] true and [end_date] not before [now]. *)
Definition active_investments (now : Z) (b : Backend) : list InvestmentWithPlan :=
  map (embed_plan b)
    (filter (fun i => Investment.is_active i && (now <=? Investment.end_date i))
       (user_investments b)).

Definition serve_select_active_investments (now : Z) (b : Backend)
  : Response (list InvestmentWithPlan) * Backend :=
  (Data (active_investments now b), b).

(** *** The calls of the supabase client *)

Definition select_plan (planId : string) : M (Response Plan.t) :=
  remote (SelectPlan planId) (serve_select_plan planId).

Definition insert_investment (r : NewInvestment.t) : M (Response Investment.t) :=
  remote (InsertInvestment r) (serve_insert_investment r).

Definition rpc_update_user_balance (user : string) (amt : float) (op : BalanceOperation)
  : M (Response unit) :=
  remote (UpdateUserBalance user amt op) (serve_update_user_balance user amt op).

Definition rpc_send_user_notification (n : Notification.t) : M (Response unit) :=
  remote (SendUserNotification n) (serve_send_user_notification n).

Definition select_investment (investmentId : string) : M (Response InvestmentWithPlan) :=
  remote (SelectInvestment investmentId) (serve_select_investment investmentId).

Definition update_investment (investmentId : string) (u : InvestmentUpdate)
  : M (Response unit) :=
  remote (UpdateInvestment investmentId u) (serve_update_investment investmentId u).

Definition select_active_investments (now : Z) : M (Response (list InvestmentWithPlan)) :=
  remote (SelectActiveInvestments now) (serve_select_active_investments now).

(** [Number(x)] of a number is the number. *)
Definition Number (x : float) : float := x.

(** A [new Date()] that follows another one without a call awaited in
    between: the clock has moved on to [later t] from the [t] it showed. *)
Definition new_Date_again : M Z :=
  fun w => (Returned (later (clock w)), with_clock (later (clock w)) w, []).

(** Reading a property of [null] throws a [TypeError]. *)
Definition property_of {A} (o : option A) : M A :=
  match o with
  | Some a => ret a
  | None => throw (TypeError "Cannot read properties of null")
  end.

(** ** [useProfitGeneration] *)

Definition activation_success (plan : Plan.t) : ToastMessage :=
  {| title := "Plan Activated Successfully!";
     description :=
       "Your " ++ Plan.name plan ++ " plan has been activated. Profits will be credited daily.";
     variant := default |}.

Definition activation_failed : ToastMessage :=
  {| title := "Activation Failed";
     description := "Failed to activate plan. Please try again.";
     variant := destructive |}.

Definition activatePlan (planId : string) (amount : float) (userId : string)
  : M Investment.t :=
  try_catch
    (plan <- or_throw (select_plan planId) ;;
     startDate <- new_Date ;;
     endDate <- new_Date_again ;;
     let endDate := JSDate.setDate LocalTZA endDate
                      (JSDate.getDate LocalTZA endDate + Plan.duration_days plan) in
     start_date <- toISOString (Some startDate) ;;
     end_date <- toISOString endDate ;;
     investment <- or_throw (insert_investment
       {| NewInvestment.user_id := userId;
          NewInvestment.plan_id := planId;
          NewInvestment.amount := amount;
          NewInvestment.start_date := start_date;
          NewInvestment.end_date := end_date;
          NewInvestment.is_active := true;
          NewInvestment.profit_earned := 0%float |}) ;;
     or_throw (rpc_update_user_balance userId amount remove) ;;
     toast (activation_success plan) ;;
     ret investment)
    (fun error =>
       console_error "Error activating plan:" error ;;
       toast activation_failed ;;
       throw error).

Definition get_lastProfitCheckRef : M (option string) :=
  fun w => (Returned (lastProfitCheckRef w), w, []).

Definition set_lastProfitCheckRef (v : string) : M unit :=
  fun w => (Returned tt, with_lastProfitCheckRef (Some v) w, []).

(** [ref === s] for a ref that holds a string or [null]. *)
Definition strict_equal (ref : option string) (s : string) : bool :=
  match ref with
  | Some r => (r =? s)%string
  | None => false
  end.

Definition shouldGenerateProfit : M bool :=
  now <- new_Date ;;
  let today := JSDate.toDateString LocalTZA now in
  last <- get_lastProfitCheckRef ;;
  if strict_equal last today then ret false
  else
    let hours := JSDate.getHours LocalTZA now in
    let minutes := JSDate.getMinutes LocalTZA now in
    if (hours =? 0) && (minutes <? 5)
    then set_lastProfitCheckRef today ;; ret true
    else ret false.

Definition profit_notification (investment : InvestmentWithPlan) (plan : Plan.t)
  (dailyProfit : float) : Notification.t :=
  {| Notification.p_user_id := Investment.user_id investment;
     Notification.p_title := "Daily Profit Credited";
     Notification.p_message :=
       "$" ++ toFixed dailyProfit 2 ++ " profit has been credited to your account from "
       ++ Plan.name plan;
     Notification.p_type := "success" |}.

Definition generateDailyProfit (investmentId : string) (amount dailyProfitPercentage : float)
  : M unit :=
  try_catch
    (let dailyProfit := ((amount * dailyProfitPercentage) / 100)%float in
     investment <- or_throw (select_investment investmentId) ;;
     now <- new_Date ;;
     let endDate := Investment.end_date investment in
     if endDate <? now
     then
       _ <- update_investment investmentId (SetIsActive false) ;;
       console_log ("Investment " ++ investmentId ++ " has expired and been deactivated")
     else
       or_throw (update_investment investmentId
         (SetProfitEarned (Number (Investment.profit_earned investment) + dailyProfit)%float)) ;;
       or_throw (rpc_update_user_balance (Investment.user_id investment) dailyProfit add) ;;
       plan <- property_of (investment_plans investment) ;;
       _ <- rpc_send_user_notification (profit_notification investment plan dailyProfit) ;;
       console_log ("Daily profit of $" ++ toFixed dailyProfit 2
                    ++ " credited for investment " ++ investmentId))
    (fun error => console_error "Error generating daily profit:" error).

(** [for (const investment of investments) await generateDailyProfit(...)];
    the plan embedded in the row is read when the arguments are evaluated,
    outside of [generateDailyProfit]. *)
Fixpoint for_each_investment (investments : list InvestmentWithPlan) : M unit :=
  match investments with
  | [] => ret tt
  | investment :: rest =>
      plan <- property_of (investment_plans investment) ;;
      generateDailyProfit (Investment.id investment)
        (Number (Investment.amount investment))
        (Number (Plan.daily_profit_percentage plan)) ;;
      for_each_investment rest
  end.

Definition generateProfitsForActiveInvestments : M unit :=
  go <- shouldGenerateProfit ;;
  if negb go then ret tt
  else
    try_catch
      (now <- new_Date ;;
       investments <- or_throw (select_active_investments now) ;;
       console_log ("Processing daily profits for "
                    ++ JSDate.decimal (Z.of_nat (List.length investments))
                    ++ " active investments") ;;
       for_each_investment investments)
      (fun error => console_error "Error generating profits:" error).

(** The timer and the mount run the check at the time the wall clock shows. *)
Definition at_time {A} (t : Z) (m : M A) : M A := fun w => m (with_clock t w).

End Client.

(** ** [RecaptchaWrapper] *)

Definition serve_select_recaptcha_settings (b : Backend) : Response Recaptcha.t * Backend :=
  (single (recaptcha_settings b), b).

Definition select_recaptcha_settings : M (Response Recaptcha.t) :=
  remote SelectRecaptchaSettings serve_select_recaptcha_settings.

(** The object the query function resolves to; [siteKey] is [undefined] in
    [{ enabled: false }]. *)
Record RecaptchaSettings := {
  enabled : bool;
  siteKey : option string }.

Definition queryFn : M RecaptchaSettings :=
  r <- select_recaptcha_settings ;;
  match r with
  | Failed _ => ret {| enabled := false; siteKey := None |}
  | Data data =>
      if negb (Recaptcha.is_enabled data)
      then ret {| enabled := false; siteKey := None |}
      else ret {| enabled := Recaptcha.is_enabled data;
                  siteKey := Some (Recaptcha.site_key data) |}
  end.

(** [useQuery]: [data] is what the query function resolved to, and stays
    [undefined] when it threw. *)
Definition useQuery {A} (fn : M A) : M (option A) :=
  try_catch (a <- fn ;; ret (Some a)) (fun _ => ret None).

#[local] Set Warnings "-register-all".
Inductive Element :=
| div (className : option string) (id : option string) (children : list Element).

(** A string is truthy when it is not empty; [undefined] is not. *)
Definition truthy (s : option string) : bool :=
  match s with
  | Some s => negb (s =? EmptyString)%string
  | None => false
  end.

Definition settings_enabled (recaptchaSettings : option RecaptchaSettings) : bool :=
  match recaptchaSettings with
  | Some s => enabled s
  | None => false
  end.

Definition settings_siteKey (recaptchaSettings : option RecaptchaSettings) : option string :=
  match recaptchaSettings with
  | Some s => siteKey s
  | None => None
  end.

(** What the component does to the page besides returning its element. *)
Inductive DomAction :=
| AppendScript (src : string)
| RenderWidget (container : string) (sitekey : string).

(** The state of a mounted component: the query data, [isLoaded], and
    whether [window.grecaptcha] exists. *)
Record WidgetState := {
  recaptchaSettings : option RecaptchaSettings;
  isLoaded : bool;
  grecaptcha : bool }.

(** The first effect: load the script. *)
Definition load_effect (st : WidgetState) : list DomAction :=
  if negb (settings_enabled (recaptchaSettings st))
     || negb (truthy (settings_siteKey (recaptchaSettings st)))
  then []
  else if grecaptcha st then []
  else [AppendScript "https://www.google.com/recaptcha/api.js"].

(** The second effect: render the widget into the container. *)
Definition render_effect (st : WidgetState) : list DomAction :=
  if isLoaded st && settings_enabled (recaptchaSettings st)
     && truthy (settings_siteKey (recaptchaSettings st)) && grecaptcha st
  then match settings_siteKey (recaptchaSettings st) with
       | Some k => [RenderWidget "recaptcha-container" k]
       | None => []
       end
  else [].

(** The element the component returns; [None] is [null]. *)
Definition RecaptchaWrapper (st : WidgetState) : option Element :=
  if negb (settings_enabled (recaptchaSettings st)) then None
  else Some (div (Some "flex justify-center my-4") None
               [div None (Some "recaptcha-container") []]).

(** The component once its query has settled in world [w]. *)
Definition settled (w : World) (loaded present : bool) : WidgetState :=
  match useQuery queryFn w with
  | (Returned data, _, _) =>
      {| recaptchaSettings := data; isLoaded := loaded; grecaptcha := present |}
  | (Thrown _, _, _) =>
      {| recaptchaSettings := None; isLoaded := loaded; grecaptcha := present |}
  end.

(** ** Words of the specification *)

(** The local calendar day of a time value, and whether its local time of
    day lies in the first five minutes after midnight. *)
Definition local_day (tza : JSDate.Zone) (t : Z) : Z := JSDate.Day (JSDate.LocalTime tza t).

Definition in_window (tza : JSDate.Zone) (t : Z) : bool :=
  JSDate.TimeWithinDay (JSDate.LocalTime tza t) <? 5 * JSDate.msPerMinute.

Definition date_string_of_day (d : Z) : string := JSDate.DateString (d * JSDate.msPerDay).

(** Repeated calls of one function by the event loop, one at each of the
    given times. *)
Fixpoint calls {A} (m : M A) (times : list Z) : M (list A) :=
  match times with
  | [] => ret []
  | t :: rest =>
      r <- at_time t m ;;
      rs <- calls m rest ;;
      ret (r :: rs)
  end.

(** Only the first [true] of a list is kept. *)
Fixpoint first_only (bs : list bool) : list bool :=
  match bs with
  | [] => []
  | true :: rest => true :: map (fun _ => false) rest
  | false :: rest => false :: first_only rest
  end.

(** The object [activatePlan] inserts, with the two dates it has computed. *)
Definition new_investment (start_date end_date : Z)
  (planId : string) (amount : float) (userId : string) : NewInvestment.t :=
  {| NewInvestment.user_id := userId;
     NewInvestment.plan_id := planId;
     NewInvestment.amount := amount;
     NewInvestment.start_date := start_date;
     NewInvestment.end_date := end_date;
     NewInvestment.is_active := true;
     NewInvestment.profit_earned := 0%float |}.

(** The end date [activatePlan] computes from its second clock read. *)
Definition end_date_of (tza : JSDate.Zone) (plan : Plan.t) (read : Z) : option Z :=
  JSDate.setDate tza read (JSDate.getDate tza read + Plan.duration_days plan).


Definition activation_failure (e : JsError) : list Event :=
  [ConsoleError "Error activating plan:" e; Toast activation_failed].

(** The reply to the [k]-th remote call from now on. *)
Definition reply (k : nat) (w : World) : Reply := network w (k + sent w).

(** The row of [user_investments] with a given id. *)
Definition has_id (investmentId : string) (i : Investment.t) : bool :=
  (Investment.id i =? investmentId)%string.

Definition lookup_investment (investmentId : string) (b : Backend) : option Investment.t :=
  find (has_id investmentId) (user_investments b).

(** [const dailyProfit = (amount * dailyProfitPercentage) / 100] *)
Definition dailyProfit (amount dailyProfitPercentage : float) : float :=
  ((amount * dailyProfitPercentage) / 100)%float.

(** The ids of the investments whose processing was started, in order. *)
Definition started (e : Event) : option string :=
  match e with
  | Remote (SelectInvestment investmentId) => Some investmentId
  | _ => None
  end.

Fixpoint filter_map {A B} (f : A -> option B) (l : list A) : list B :=
  match l with
  | [] => []
  | a :: rest =>
      match f a with
      | Some b => b :: filter_map f rest
      | None => filter_map f rest
      end
  end.

(** Every investment refers to a plan of the plans table, as the foreign key
    of [user_investments.plan_id] has it. *)
Definition plans_resolve (b : Backend) : Prop :=
  forall i, In i (user_investments b) -> investment_plans (embed_plan b i) <> None.

(** The reads of the settings that leave verification off: the call fails,
    the table has no row, or its row has [is_enabled] false. *)
Definition verification_off (w : World) : Prop :=
  (exists e, failure (reply 0 w) = Some e)
  \/ recaptcha_settings (backend w) = []
  \/ (exists data, recaptcha_settings (backend w) = [data]
                   /\ Recaptcha.is_enabled data = false).

(** ** More words for stating properties *)

(** The credits and debits asked of the backend, in order. *)
Definition balance_request (e : Event) : option (string * float * BalanceOperation) :=
  match e with
  | Remote (UpdateUserBalance user amt op) => Some (user, amt, op)
  | _ => None
  end.

(** The update of one row that [generateDailyProfit] asks for. *)
Definition updated (investmentId : string) (u : InvestmentUpdate) (rows : list Investment.t)
  : list Investment.t :=
  map (fun i => if (Investment.id i =? investmentId)%string then apply_update u i else i) rows.

(** The balance requests one fetched record can account for in a cycle: none,
    or one credit of the daily profit on its amount at the rate of its plan. *)
Definition credits_of (r : InvestmentWithPlan)
  (cs : list (string * float * BalanceOperation)) : Prop :=
  cs = []
  \/ exists user plan,
       investment_plans r = Some plan
       /\ cs = [(user,
                 dailyProfit (Investment.amount r) (Plan.daily_profit_percentage plan),
                 add)].

(** *** The hook once mounted

    [useRef(null)] gives the marker, and the effect checks at once and then
    from an interval of [60 * 60 * 1000] ms.  The checks are taken at the
    nominal times of the interval, one after the other. *)
Definition interval : Z := 60 * 60 * 1000.

Definition check_times (mounted : Z) (ticks : nat) : list Z :=
  map (fun k => mounted + Z.of_nat k * interval) (seq 0 (S ticks)).

(** The zone's offset at each check differs from the offset at mount by a
    whole number of hours. *)
Definition whole_hour_changes (tza : JSDate.Zone) (mounted : Z) (ticks : nat) : Prop :=
  forall k : nat, (k <= ticks)%nat ->
    exists h : Z,
      JSDate.offset_at tza (mounted + Z.of_nat k * interval)
      = JSDate.offset_at tza mounted + h * JSDate.msPerHour.

Definition mount (tza : JSDate.Zone) (toFixed : float -> Z -> string) (mounted : Z) (ticks : nat)
  : M (list unit) :=
  fun w =>
    calls (generateProfitsForActiveInvestments tza toFixed) (check_times mounted ticks)
      (with_lastProfitCheckRef None w).

(** The element the component returns when verification is on. *)
Definition recaptcha_container : Element :=
  div (Some "flex justify-center my-4") None [div None (Some "recaptcha-container") []].

(** *** A cycle in which nothing fails *)

(** The time the clock shows when the [n]-th remote call from now on is
    answered. *)
Fixpoint clock_after (n : nat) (w : World) : Z :=
  match n with
  | O => clock w
  | S k => clock_after k w + elapsed (reply k w)
  end.

(** The next [calls] remote calls go through, each answered by [deadline]. *)
Definition calm (calls : nat) (deadline : Z) (w : World) : Prop :=
  forall n, (n < calls)%nat ->
    failure (reply n w) = None /\ clock_after (S n) w <= deadline.

(** The daily profit of a fetched record, and the row once it is credited. *)
Definition profit_of (r : InvestmentWithPlan) : float :=
  match investment_plans r with
  | Some plan => dailyProfit (Investment.amount r) (Plan.daily_profit_percentage plan)
  | None => 0%float
  end.

Definition credited (r : InvestmentWithPlan) : Investment.t :=
  apply_update (SetProfitEarned (Investment.profit_earned r + profit_of r)%float) r.

(** What does not change in a row of [user_investments] once it is stored. *)
Definition fixed_part (i : Investment.t) : string * string * string * float * Z * Z :=
  (Investment.id i, Investment.user_id i, Investment.plan_id i,
   Investment.amount i, Investment.start_date i, Investment.end_date i).

(** ** A concrete browser and backend, for running the code *)

(** [toFixed] where it prints decimal notation, for numbers below 10^21: the
    digits of the closest multiple of 10^-fractionDigits, of the larger one
    when two are as close. *)
Definition fixed_digits (n f : Z) : string :=
  if f =? 0 then JSDate.decimal n
  else JSDate.decimal (n / 10 ^ f) ++ "." ++ JSDate.padded (Z.to_nat f) (n mod 10 ^ f).

Definition toFixed_decimal (x : float) (fractionDigits : Z) : string :=
  match Prim2SF x with
  | S754_nan => "NaN"
  | S754_infinity s => if s then "-Infinity" else "Infinity"
  | S754_zero _ => fixed_digits 0 fractionDigits
  | S754_finite s m e =>
      let scaled := Z.pos m * 10 ^ fractionDigits in
      let n := if 0 <=? e then scaled * 2 ^ e
               else (2 * scaled + 2 ^ (- e)) / (2 * 2 ^ (- e)) in
      (if s then "-" else EmptyString) ++ fixed_digits n fractionDigits
  end.

(** Ids counted up by the database. *)
Definition serial_id (rows : list Investment.t) : string :=
  "inv-" ++ JSDate.decimal (Z.of_nat (List.length rows) + 1).

(** A browser one hour east of UTC, and local midnight of 2 November 2026. *)
Definition utc_plus_1 : JSDate.Zone := JSDate.fixed 3600000.
Definition midnight : Z := 1793574000000.

(** Central European time around the winter of 2026/27: summer time ends on
    25 October 2026 and begins on 28 March 2027, both at 01:00 UTC.  The hour
    that comes twice is read as its first coming, the hour that is skipped
    with the offset from before the change. *)
Definition summer_time_ends : Z := 1792890000000.
Definition summer_time_begins : Z := 1806195600000.

Definition central_europe : JSDate.Zone :=
  {| JSDate.offset_at := fun t =>
       if t <? summer_time_ends then 2 * JSDate.msPerHour
       else if t <? summer_time_begins then JSDate.msPerHour
       else 2 * JSDate.msPerHour;
     JSDate.offset_of_local := fun lt =>
       if lt <? summer_time_ends + 2 * JSDate.msPerHour then 2 * JSDate.msPerHour
       else if lt <? summer_time_begins + 2 * JSDate.msPerHour then JSDate.msPerHour
       else 2 * JSDate.msPerHour |}.

(** A clock that has not moved at the second read, and one that has moved by
    a millisecond. *)
Definition at_once : Z -> Z := fun t => t.

Definition starter : Plan.t :=
  {| Plan.id := "plan-1"; Plan.name := "Starter";
     Plan.duration_days := 30; Plan.daily_profit_percentage := 2%float |}.

(** Three investments in the plan: one ten days old, one that ended the day
    before, one of another user. *)
Definition running : Investment.t :=
  {| Investment.id := "inv-1"; Investment.user_id := "user-1";
     Investment.plan_id := "plan-1"; Investment.amount := 1000%float;
     Investment.start_date := midnight - 10 * JSDate.msPerDay;
     Investment.end_date := midnight + 20 * JSDate.msPerDay;
     Investment.is_active := true; Investment.profit_earned := 180%float |}.

Definition lapsed : Investment.t :=
  {| Investment.id := "inv-2"; Investment.user_id := "user-1";
     Investment.plan_id := "plan-1"; Investment.amount := 400%float;
     Investment.start_date := midnight - 31 * JSDate.msPerDay;
     Investment.end_date := midnight - 1 * JSDate.msPerDay;
     Investment.is_active := true; Investment.profit_earned := 240%float |}.

Definition other : Investment.t :=
  {| Investment.id := "inv-3"; Investment.user_id := "user-2";
     Investment.plan_id := "plan-1"; Investment.amount := 50%float;
     Investment.start_date := midnight - 2 * JSDate.msPerDay;
     Investment.end_date := midnight + 28 * JSDate.msPerDay;
     Investment.is_active := true; Investment.profit_earned := 1%float |}.

Definition sample_backend : Backend :=
  {| investment_plans_table := [starter];
     user_investments := [running; lapsed; other];
     balances := fun user => if (user =? "user-1")%string then 500%float else 0%float;
     notifications := [];
     recaptcha_settings := [{| Recaptcha.site_key := "site-key"; Recaptcha.is_enabled := false |}] |}.

(** A network on which every call takes 120 ms and goes through, and one on
    which the [k]-th call fails. *)
Definition quiet : Reply := {| elapsed := 120; failure := None |}.

Definition timeout : JsError := PostgrestError "Failed to fetch".

Definition failing_at (k : nat) : nat -> Reply :=
  fun n => if Nat.eqb n k then {| elapsed := 120; failure := Some timeout |} else quiet.

(** The page freshly loaded at time [t]. *)
Definition loaded_at (t : Z) (net : nat -> Reply) : World :=
  {| clock := t; network := net; sent := 0; backend := sample_backend;
     lastProfitCheckRef := None |}.


(** The investment that a user gets for 250 in the starter plan. *)
Definition activated : Investment.t :=
  {| Investment.id := "inv-4"; Investment.user_id := "user-1";
     Investment.plan_id := "plan-1"; Investment.amount := 250%float;
     Investment.start_date := midnight + 36000120;
     Investment.end_date := midnight + 36000120 + 30 * JSDate.msPerDay;
     Investment.is_active := true; Investment.profit_earned := 0%float |}.


(** An investment in a plan that the plans table does not have, and a backend
    holding it between the two running ones. *)
Definition orphan : Investment.t :=
  {| Investment.id := "inv-5"; Investment.user_id := "user-3";
     Investment.plan_id := "plan-9"; Investment.amount := 70%float;
     Investment.start_date := midnight - 1 * JSDate.msPerDay;
     Investment.end_date := midnight + 6 * JSDate.msPerDay;
     Investment.is_active := true; Investment.profit_earned := 0%float |}.

Definition orphan_backend : Backend :=
  {| investment_plans_table := [starter];
     user_investments := [running; orphan; other];
     balances := fun user => if (user =? "user-1")%string then 500%float else 0%float;
     notifications := [];
     recaptcha_settings := [] |}.

(** A backend whose one settings row is enabled, with the given site key. *)
Definition enabled_backend (key : string) : Backend :=
  {| investment_plans_table := [starter];
     user_investments := [running; lapsed; other];
     balances := fun user => if (user =? "user-1")%string then 500%float else 0%float;
     notifications := [];
     recaptcha_settings := [{| Recaptcha.site_key := key; Recaptcha.is_enabled := true |}] |}.

(** The page freshly loaded at time [t] against the backend [b]. *)
Definition loaded_with (b : Backend) (t : Z) (net : nat -> Reply) : World :=
  {| clock := t; network := net; sent := 0; backend := b; lastProfitCheckRef := None |}.

(** * Properties *)

Example toDateString_epoch : JSDate.toDateString (JSDate.fixed 0) 0 = "Thu Jan 01 1970".
Proof. reflexivity. Qed.

Example toDateString_2026 : JSDate.toDateString utc_plus_1 1793574000000 = "Mon Nov 02 2026".
Proof. reflexivity. Qed.

Example toDateString_leap :
  JSDate.toDateString (JSDate.fixed 0) 951782400000 = "Tue Feb 29 2000".
Proof. vm_compute. reflexivity. Qed.

Example setDate_overflow :
  (* 30 January 2024 12:00 UTC, setDate(30 + 3) is 2 February 2024 12:00 UTC *)
  JSDate.setDate (JSDate.fixed 0) 1706616000000
    (JSDate.getDate (JSDate.fixed 0) 1706616000000 + 3) = Some 1706875200000.
Proof. reflexivity. Qed.

Example setDate_across_clock_change :
  (* 20 October 2026 10:00 in Berlin; 30 days later it is 10:00 again, which
     is 30 days and one hour on *)
  end_date_of central_europe starter 1792483200000 = Some 1795078800000
  /\ 1795078800000 - 1792483200000 = 30 * JSDate.msPerDay + JSDate.msPerHour.
Proof. split; reflexivity. Qed.

Example setDate_out_of_range :
  JSDate.setDate utc_plus_1 1793574000000
    (JSDate.getDate utc_plus_1 1793574000000 + 100000000) = None.
Proof. reflexivity. Qed.


Lemma DateString_Day (lt1 lt2 : Z) :
  JSDate.Day lt1 = JSDate.Day lt2 -> JSDate.DateString lt1 = JSDate.DateString lt2.
Proof.
  intros H.
  unfold JSDate.DateString, JSDate.YearFromTime, JSDate.MonthFromTime,
    JSDate.DateFromTime, JSDate.WeekDay.
  rewrite H. reflexivity.
Qed.

Lemma toDateString_local_day (tza : JSDate.Zone) (t : Z) :
  JSDate.toDateString tza t = date_string_of_day (local_day tza t).
Proof.
  unfold JSDate.toDateString, date_string_of_day, local_day.
  apply DateString_Day. unfold JSDate.Day.
  rewrite Z.div_mul; [reflexivity | unfold JSDate.msPerDay; lia].
Qed.

(** The test of the code on hours and minutes is the test on the time of
    day. *)
Lemma hours_minutes_window (tza : JSDate.Zone) (t : Z) :
  (JSDate.getHours tza t =? 0) && (JSDate.getMinutes tza t <? 5) = in_window tza t.
Proof.
  unfold in_window, JSDate.getHours, JSDate.getMinutes, JSDate.HourFromTime,
    JSDate.MinFromTime, JSDate.TimeWithinDay, JSDate.msPerHour, JSDate.msPerMinute,
    JSDate.msPerDay.
  generalize (JSDate.LocalTime tza t). intros lt.
  destruct (Z.ltb_spec (lt mod 86400000) (5 * 60000)) as [Hw | Hw].
  - apply andb_true_iff. split; [apply Z.eqb_eq | apply Z.ltb_lt];
      Z.to_euclidean_division_equations; lia.
  - apply andb_false_iff.
    destruct (Z.eqb_spec ((lt / 3600000) mod 24) 0) as [Hh | Hh]; [right | left; reflexivity].
    apply Z.ltb_ge. Z.to_euclidean_division_equations. lia.
Qed.

(** One call of the gate at time [t], in closed form. *)
Lemma shouldGenerateProfit_at (tza : JSDate.Zone) (t : Z) (w : World) :
  at_time t (shouldGenerateProfit tza) w =
  let today := date_string_of_day (local_day tza t) in
  if strict_equal (lastProfitCheckRef w) today then (Returned false, with_clock t w, [])
  else if in_window tza t
       then (Returned true, with_lastProfitCheckRef (Some today) (with_clock t w), [])
       else (Returned false, with_clock t w, []).
Proof.
  unfold at_time, shouldGenerateProfit, bind, new_Date, get_lastProfitCheckRef,
    set_lastProfitCheckRef, ret.
  cbn [clock with_clock lastProfitCheckRef].
  rewrite toDateString_local_day, hours_minutes_window.
  destruct (strict_equal (lastProfitCheckRef w) _); [reflexivity |].
  destruct (in_window tza t); reflexivity.
Qed.

Lemma strict_equal_same (s : string) : strict_equal (Some s) s = true.
Proof. apply String.eqb_refl. Qed.

Lemma strict_equal_false (ref : option string) (s : string) :
  ref <> Some s -> strict_equal ref s = false.
Proof.
  destruct ref as [r |]; [| reflexivity]. intros H. cbn.
  destruct (String.eqb_spec r s); [subst; contradiction | reflexivity].
Qed.

(** Once the marker holds the day, every call of that day returns [false]
    and leaves the marker alone. *)
Lemma calls_after_fired (tza : JSDate.Zone) (d : Z) (times : list Z) :
  Forall (fun t => local_day tza t = d) times ->
  forall w, lastProfitCheckRef w = Some (date_string_of_day d) ->
  exists w',
    calls (shouldGenerateProfit tza) times w = (Returned (map (fun _ => false) times), w', [])
    /\ lastProfitCheckRef w' = Some (date_string_of_day d).
Proof.
  induction 1 as [| t rest Ht _ IH]; intros w Hw.
  - exists w. split; [reflexivity | assumption].
  - cbn [calls]. unfold bind at 1. rewrite shouldGenerateProfit_at. cbv zeta.
    rewrite Ht, Hw, strict_equal_same.
    destruct (IH (with_clock t w) Hw) as (w' & Hrun & Hw').
    unfold bind. rewrite Hrun. exists w'. split; [reflexivity | assumption].
Qed.

(** Before that, the calls of the day return [true] at the first one in the
    window and [false] everywhere else. *)
Lemma calls_before_fired (tza : JSDate.Zone) (d : Z) (times : list Z) :
  Forall (fun t => local_day tza t = d) times ->
  forall w, lastProfitCheckRef w <> Some (date_string_of_day d) ->
  exists w',
    calls (shouldGenerateProfit tza) times w
    = (Returned (first_only (map (in_window tza) times)), w', []).
Proof.
  induction 1 as [| t rest Ht Hrest IH]; intros w Hw.
  - exists w. reflexivity.
  - cbn [calls map first_only]. unfold bind at 1. rewrite shouldGenerateProfit_at. cbv zeta.
    rewrite Ht, (strict_equal_false _ _ Hw).
    destruct (in_window tza t).
    + destruct (calls_after_fired tza d rest Hrest
                  (with_lastProfitCheckRef (Some (date_string_of_day d)) (with_clock t w))
                  eq_refl) as (w' & Hrun & _).
      unfold bind. rewrite Hrun, map_map. exists w'. reflexivity.
    + destruct (IH (with_clock t w) Hw) as (w' & Hrun).
      unfold bind. rewrite Hrun. exists w'. reflexivity.
Qed.

Lemma first_only_length (bs : list bool) : List.length (first_only bs) = List.length bs.
Proof.
  induction bs as [| [] bs IH]; cbn; [reflexivity | | now rewrite IH].
  now rewrite length_map.
Qed.

Lemma nth_error_all_false {A} (l : list A) (j : nat) (b : bool) :
  nth_error (map (fun _ => false) l) j = Some b -> b = false.
Proof.
  revert j. induction l as [| a l IH]; intros [| j] H; cbn in H; try discriminate.
  - now inversion H.
  - eauto.
Qed.

Lemma count_all_false {A} (l : list A) :
  count_occ bool_dec (map (fun _ => false) l) true = 0%nat.
Proof. induction l; cbn; auto. Qed.

Lemma first_only_outside (bs : list bool) (i : nat) :
  nth_error bs i = Some false -> nth_error (first_only bs) i = Some false.
Proof.
  revert i. induction bs as [| [] bs IH]; intros [| i] H; cbn in *; try discriminate; auto.
  rewrite nth_error_map. destruct (nth_error bs i); [reflexivity | discriminate].
Qed.

Lemma first_only_inside (bs : list bool) (i : nat) :
  nth_error (first_only bs) i = Some true -> nth_error bs i = Some true.
Proof.
  revert i. induction bs as [| [] bs IH]; intros [| i] H; cbn in *; try discriminate; auto.
  apply nth_error_all_false in H. discriminate.
Qed.

Lemma first_only_count (bs : list bool) :
  In true bs -> count_occ bool_dec (first_only bs) true = 1%nat.
Proof.
  induction bs as [| [] bs IH]; cbn; intros H.
  - contradiction.
  - now rewrite count_all_false.
  - destruct H as [H | H]; [discriminate | auto].
Qed.

Lemma first_only_after (bs : list bool) (i j : nat) :
  (i < j)%nat -> (j < List.length bs)%nat ->
  nth_error (first_only bs) i = Some true -> nth_error (first_only bs) j = Some false.
Proof.
  revert i j. induction bs as [| [] bs IH]; intros i j Hij Hj Hi; cbn in *.
  - lia.
  - destruct j as [| j]; [lia |]. cbn. rewrite nth_error_map.
    destruct (nth_error bs j) eqn:E; [reflexivity |].
    apply nth_error_None in E. lia.
  - destruct i as [| i]; [discriminate |]. destruct j as [| j]; [lia |].
    cbn in *. apply (IH i j); [lia | lia | assumption].
Qed.

(** C1. Calls of [shouldGenerateProfit] within one local calendar day [d],
    starting from a marker that is not yet that day's: no call throws or has
    an effect to show; a call outside the first five minutes after midnight
    returns [false]; a call returns [true] only inside that window; when some
    call lies in the window exactly one call returns [true]; and every call
    after a [true] returns [false]. *)
Theorem shouldGenerateProfit_once_per_day (tza : JSDate.Zone) (d : Z) (times : list Z) (w : World) :
  Forall (fun t => local_day tza t = d) times ->
  lastProfitCheckRef w <> Some (date_string_of_day d) ->
  exists results w',
    calls (shouldGenerateProfit tza) times w = (Returned results, w', [])
    /\ List.length results = List.length times
    /\ (forall i t, nth_error times i = Some t -> in_window tza t = false ->
                    nth_error results i = Some false)
    /\ (forall i, nth_error results i = Some true ->
                  exists t, nth_error times i = Some t /\ in_window tza t = true)
    /\ ((exists t, In t times /\ in_window tza t = true) ->
        count_occ bool_dec results true = 1%nat)
    /\ (forall i j, (i < j)%nat -> (j < List.length times)%nat ->
                    nth_error results i = Some true -> nth_error results j = Some false).
Proof.
  intros Hday Hw.
  destruct (calls_before_fired tza d times Hday w Hw) as (w' & Hrun).
  exists (first_only (map (in_window tza) times)), w'.
  split; [exact Hrun |]. split; [now rewrite first_only_length, length_map |].
  split; [| split; [| split]].
  - intros i t Ht Hout. apply first_only_outside.
    rewrite nth_error_map, Ht. cbn. now rewrite Hout.
  - intros i Hi. apply first_only_inside in Hi. rewrite nth_error_map in Hi.
    destruct (nth_error times i) as [t |]; [| discriminate].
    exists t. split; [reflexivity | now inversion Hi].
  - intros (t & Hin & Ht). apply first_only_count.
    rewrite <- Ht. now apply in_map.
  - intros i j Hij Hj. apply first_only_after; [assumption | now rewrite length_map].
Qed.

(** Symbolic execution of client code: the monad and the calls are unfolded,
    the backend and the dates are left folded. *)
Ltac run_client :=
  cbv beta iota zeta delta
    [try_catch bind or_throw throw ret emit toast console_error console_log new_Date
     new_Date_again toISOString remote select_plan insert_investment rpc_update_user_balance
     rpc_send_user_notification select_investment update_investment
     select_active_investments select_recaptcha_settings property_of
     get_lastProfitCheckRef set_lastProfitCheckRef
     serve_select_plan serve_select_investment serve_select_active_investments
     serve_select_recaptcha_settings serve_insert_investment serve_update_user_balance
     serve_update_investment serve_send_user_notification
     replied with_backend with_clock with_lastProfitCheckRef
     clock network sent backend lastProfitCheckRef fst snd app].

Arguments JSDate.setDate : simpl never.
Arguments JSDate.getDate : simpl never.
Arguments JSDate.toDateString : simpl never.
Arguments JSDate.decimal : simpl never.





(** [activatePlan] in closed form: one case for each step that can fail. *)
Lemma activatePlan_run tza gen_id later planId amount userId (w : World) :
  activatePlan tza gen_id later planId amount userId w =
  match failure (network w (sent w)) with
  | Some e => (Thrown e, replied w, Remote (SelectPlan planId) :: activation_failure e)
  | None =>
    match fst (serve_select_plan planId (backend w)) with
    | Failed e => (Thrown e, replied w, Remote (SelectPlan planId) :: activation_failure e)
    | Data plan =>
      let start := clock (replied w) in
      let w1 := with_clock (later start) (replied w) in
      match end_date_of tza plan (later start) with
      | None =>
          (Thrown (RangeError "Invalid time value"), w1,
           Remote (SelectPlan planId)
           :: activation_failure (RangeError "Invalid time value"))
      | Some end_date =>
        let row := new_investment start end_date planId amount userId in
        match failure (network w (S (sent w))) with
        | Some e =>
            (Thrown e, replied w1,
             Remote (SelectPlan planId) :: Remote (InsertInvestment row)
             :: activation_failure e)
        | None =>
          let w2 := with_backend (snd (serve_insert_investment gen_id row (backend w)))
                      (replied w1) in
          match failure (network w (S (S (sent w)))) with
          | Some e =>
              (Thrown e, replied w2,
               Remote (SelectPlan planId) :: Remote (InsertInvestment row)
               :: Remote (UpdateUserBalance userId amount remove) :: activation_failure e)
          | None =>
              (Returned (stored gen_id (backend w) row),
               with_backend (snd (serve_update_user_balance userId amount remove (backend w2)))
                 (replied w2),
               [Remote (SelectPlan planId); Remote (InsertInvestment row);
                Remote (UpdateUserBalance userId amount remove);
                Toast (activation_success plan)])
          end
        end
      end
    end
  end.
Proof.
  destruct w as [now net n b ref]. unfold activatePlan, end_date_of. run_client.
  destruct (failure (net n)) as [e |]; [reflexivity |].
  destruct (single _) as [e | plan]; [reflexivity |].
  destruct (JSDate.setDate tza _ _) as [end_date |]; [| reflexivity].
  destruct (failure (net (S n))) as [e |]; [reflexivity |].
  destruct (failure (net (S (S n)))) as [e |]; reflexivity.
Qed.

Lemma single_Data {A} (rows : list A) (row : A) :
  single rows = Data row -> rows = [row].
Proof.
  destruct rows as [| r [| r' rows]]; cbn; intros H; try discriminate.
  now inversion H.
Qed.



(** C4. Whichever step of [activatePlan] fails, the call throws the error of
    that step after having logged it and shown the failure toast, and none of
    the later steps is taken: a failed read of the plan and an end date out of
    range leave the backend as it was with only the read requested, a failed
    insert leaves it as it was with the read and the insert requested, and
    a failed debit comes after the insert has gone through, whose row is in
    the table afterwards, nothing being undone, with the balances those from
    before.  Conversely a call that throws has made the requests up to the
    failed step and nothing after them but the log and the failure toast; it
    has shown no success toast and changed no balance and no plan. *)
Theorem activatePlan_failure tza gen_id later planId amount userId (w : World) :
  let failed := fun e =>
    [ConsoleError "Error activating plan:" e;
     Toast {| title := "Activation Failed";
              description := "Failed to activate plan. Please try again.";
              variant := destructive |}] in
  let run := activatePlan tza gen_id later planId amount userId w in
  (forall e,
     failure (reply 0 w) = Some e
     \/ (failure (reply 0 w) = None
         /\ fst (serve_select_plan planId (backend w)) = Failed e) ->
     exists w',
       run = (Thrown e, w', Remote (SelectPlan planId) :: failed e)
       /\ backend w' = backend w)
  /\ (forall plan,
        failure (reply 0 w) = None ->
        fst (serve_select_plan planId (backend w)) = Data plan ->
        let start := clock (replied w) in
        (end_date_of tza plan (later start) = None ->
         exists w',
           run = (Thrown (RangeError "Invalid time value"), w',
                  Remote (SelectPlan planId) :: failed (RangeError "Invalid time value"))
           /\ backend w' = backend w)
        /\ (forall end_date,
              end_date_of tza plan (later start) = Some end_date ->
              let row := new_investment start end_date planId amount userId in
              (forall e,
                 failure (reply 1 w) = Some e ->
                 exists w',
                   run = (Thrown e, w',
                          Remote (SelectPlan planId) :: Remote (InsertInvestment row)
                          :: failed e)
                   /\ backend w' = backend w)
              /\ (forall e,
                    failure (reply 1 w) = None ->
                    failure (reply 2 w) = Some e ->
                    exists w',
                      run = (Thrown e, w',
                             Remote (SelectPlan planId) :: Remote (InsertInvestment row)
                             :: Remote (UpdateUserBalance userId amount remove)
                             :: failed e)
                      /\ user_investments (backend w')
                         = (user_investments (backend w)
                            ++ [stored gen_id (backend w) row])%list
                      /\ balances (backend w') = balances (backend w))))
  /\ (forall e w' tr,
        run = (Thrown e, w', tr) ->
        (exists requests,
           tr = (map Remote requests ++ failed e)%list
           /\ (requests = [SelectPlan planId]
               \/ (exists row, requests = [SelectPlan planId; InsertInvestment row])
               \/ (exists row, requests = [SelectPlan planId; InsertInvestment row;
                                           UpdateUserBalance userId amount remove])))
        /\ (forall t, In (Toast t) tr -> variant t = destructive)
        /\ balances (backend w') = balances (backend w)
        /\ investment_plans_table (backend w') = investment_plans_table (backend w)).
Proof.
  intros failed run. unfold run. rewrite activatePlan_run.
  change (network w (sent w)) with (reply 0 w).
  change (network w (S (sent w))) with (reply 1 w).
  change (network w (S (S (sent w)))) with (reply 2 w).
  split; [| split].
  - intros e [H0 | [H0 Hplan]].
    + rewrite H0. eexists. split; reflexivity.
    + rewrite H0, Hplan. eexists. split; reflexivity.
  - intros plan H0 Hplan. rewrite H0, Hplan. cbv zeta. split.
    + intros Hend. rewrite Hend. eexists. split; reflexivity.
    + intros end_date Hend. rewrite Hend. split.
      * intros e H1. rewrite H1. eexists. split; reflexivity.
      * intros e H1 H2. rewrite H1, H2. eexists. split; [reflexivity |].
        split; reflexivity.
  - intros e w' tr.
    destruct (failure (reply 0 w)) as [e1 |].
    { intros H; inversion H; subst; clear H. split; [| split; [| split]].
      - exists [SelectPlan planId]. split; [reflexivity | now left].
      - intros t [H | [H | [H | []]]]; inversion H; reflexivity.
      - reflexivity.
      - reflexivity. }
    destruct (fst (serve_select_plan planId (backend w))) as [e1 | plan].
    { intros H; inversion H; subst; clear H. split; [| split; [| split]].
      - exists [SelectPlan planId]. split; [reflexivity | now left].
      - intros t [H | [H | [H | []]]]; inversion H; reflexivity.
      - reflexivity.
      - reflexivity. }
    cbv zeta.
    destruct (end_date_of tza plan (later (clock (replied w)))) as [end_date |].
    2: { intros H; inversion H; subst; clear H. split; [| split; [| split]].
      - exists [SelectPlan planId]. split; [reflexivity | now left].
      - intros t [H | [H | [H | []]]]; inversion H; reflexivity.
      - reflexivity.
      - reflexivity. }
    destruct (failure (reply 1 w)) as [e1 |].
    { intros H; inversion H; subst; clear H. split; [| split; [| split]].
      - eexists [SelectPlan planId; InsertInvestment _].
        split; [reflexivity | right; left; eexists; reflexivity].
      - intros t [H | [H | [H | [H | []]]]]; inversion H; reflexivity.
      - reflexivity.
      - reflexivity. }
    destruct (failure (reply 2 w)) as [e1 |]; [| discriminate].
    intros H; inversion H; subst; clear H. split; [| split; [| split]].
    + eexists [SelectPlan planId; InsertInvestment _; UpdateUserBalance userId amount remove].
      split; [reflexivity | right; right; eexists; reflexivity].
    + intros t [H | [H | [H | [H | [H | []]]]]]; inversion H; reflexivity.
    + reflexivity.
    + reflexivity.
Qed.

Lemma filter_map_app {A B} (f : A -> option B) (l1 l2 : list A) :
  filter_map f (l1 ++ l2) = (filter_map f l1 ++ filter_map f l2)%list.
Proof.
  induction l1 as [| a l1 IH]; cbn; [reflexivity |].
  destruct (f a); cbn; now rewrite IH.
Qed.

(** Case analysis on the innermost undecided test of the goal. *)
Ltac case_split :=
  match goal with
  | |- context [match ?x with _ => _ end] =>
      lazymatch x with
      | context [match _ with _ => _ end] => fail
      | _ => destruct x eqn:?
      end
  end; run_client.

(** [generateDailyProfit] never throws: it returns after having asked for the
    investment first, whatever the replies are, and it leaves the day marker
    of the hook alone. *)
Lemma generateDailyProfit_returns toFixed investmentId amount pct (w : World) :
  exists w' tr,
    generateDailyProfit toFixed investmentId amount pct w = (Returned tt, w', tr)
    /\ filter_map started tr = [investmentId]
    /\ lastProfitCheckRef w' = lastProfitCheckRef w.
Proof.
  destruct w as [now net n b ref]. unfold generateDailyProfit. run_client.
  repeat case_split; do 2 eexists; (split; [reflexivity | split; reflexivity]).
Qed.

Lemma find_of_filter {A} (f : A -> bool) (l : list A) (x : A) :
  filter f l = [x] -> find f l = Some x.
Proof.
  induction l as [| a l IH]; cbn; [discriminate |].
  destruct (f a); [intros H; now inversion H | exact IH].
Qed.

Lemma select_investment_Data investmentId (b : Backend) (row : InvestmentWithPlan) :
  fst (serve_select_investment investmentId b) = Data row ->
  filter (has_id investmentId) (user_investments b) = [investment row].
Proof.
  unfold serve_select_investment. cbn [fst]. intros H. apply single_Data in H.
  fold (has_id investmentId) in H.
  destruct (filter (has_id investmentId) (user_investments b)) as [| i [| i' l]];
    cbn in H; try discriminate.
  inversion H. reflexivity.
Qed.

Lemma filter_updated investmentId (u : InvestmentUpdate) (rows : list Investment.t) :
  filter (has_id investmentId)
    (map (fun i => if (Investment.id i =? investmentId)%string then apply_update u i else i)
       rows)
  = map (apply_update u) (filter (has_id investmentId) rows).
Proof.
  unfold has_id.
  induction rows as [| i rows IH]; cbn [map filter]; [reflexivity |].
  destruct (Investment.id i =? investmentId)%string eqn:E;
    cbn [apply_update Investment.id map]; rewrite E, IH; reflexivity.
Qed.

Lemma lookup_updated investmentId (u : InvestmentUpdate) (b : Backend)
  (row : InvestmentWithPlan) (rows : list Investment.t) :
  fst (serve_select_investment investmentId b) = Data row ->
  rows = map (fun i => if (Investment.id i =? investmentId)%string
                       then apply_update u i else i) (user_investments b) ->
  find (has_id investmentId) rows = Some (apply_update u row).
Proof.
  intros H ->. apply find_of_filter.
  rewrite filter_updated, (select_investment_Data _ _ _ H). reflexivity.
Qed.

Lemma profit_earned_kept investmentId (a : bool) (rows : list Investment.t) :
  map Investment.profit_earned
    (map (fun i => if (Investment.id i =? investmentId)%string
                   then apply_update (SetIsActive a) i else i) rows)
  = map Investment.profit_earned rows.
Proof.
  rewrite map_map. apply map_ext. intros i.
  destruct (Investment.id i =? investmentId)%string; reflexivity.
Qed.

(** Hypotheses about a world are read on its fields. *)
Ltac on_fields :=
  cbv beta iota delta
    [reply replied Nat.add clock network sent backend lastProfitCheckRef lookup_investment] in *.

(** C5. When the investment fetched has its [end_date] before the time at
    which the fetch resolved, [generateDailyProfit] asks the backend to set
    [is_active] to [false], logs that and returns: it asks for nothing else,
    so no balance is credited and no notification is sent, no [profit_earned]
    changes, and once the update has gone through the row is inactive with the
    [profit_earned] it had. *)
Theorem generateDailyProfit_expired toFixed investmentId amount pct
  (w : World) (row : InvestmentWithPlan) :
  failure (reply 0 w) = None ->
  fst (serve_select_investment investmentId (backend w)) = Data row ->
  Investment.end_date row < clock (replied w) ->
  exists w',
    generateDailyProfit toFixed investmentId amount pct w
    = (Returned tt, w',
       [Remote (SelectInvestment investmentId);
        Remote (UpdateInvestment investmentId (SetIsActive false));
        ConsoleLog ("Investment " ++ investmentId ++ " has expired and been deactivated")])
    /\ map Investment.profit_earned (user_investments (backend w'))
       = map Investment.profit_earned (user_investments (backend w))
    /\ balances (backend w') = balances (backend w)
    /\ notifications (backend w') = notifications (backend w)
    /\ (failure (reply 1 w) = None ->
        exists after,
          lookup_investment investmentId (backend w') = Some after
          /\ Investment.is_active after = false
          /\ Investment.profit_earned after = Investment.profit_earned row).
Proof.
  destruct w as [now net n b ref]. on_fields. intros H0 Hrow Hexp.
  apply Z.ltb_lt in Hexp.
  unfold generateDailyProfit. run_client. rewrite H0.
  unfold serve_select_investment in Hrow |- *. cbn [fst] in Hrow. rewrite Hrow.
  run_client. rewrite Hexp.
  destruct (failure (net (S n))) as [e |] eqn:H1; run_client.
  - eexists. split; [reflexivity |]. repeat split; try reflexivity. discriminate.
  - eexists. split; [reflexivity |]. on_fields. cbn [user_investments balances notifications].
    split; [apply profit_earned_kept |]. repeat split.
    intros _. eexists. split; [| split].
    + eapply lookup_updated; [| reflexivity].
      unfold serve_select_investment. cbn [fst]. exact Hrow.
    + reflexivity.
    + reflexivity.
Qed.

(** C10. In the expiry branch the result of the update that sets [is_active]
    to [false] is not looked at: whether that update fails or not,
    [generateDailyProfit] logs that the investment has been deactivated and
    returns, and no error is logged; when the update failed the backend is as
    it was, the row still as active as before. *)
Theorem generateDailyProfit_expiry_update_unchecked toFixed investmentId amount pct
  (w : World) (row : InvestmentWithPlan) :
  failure (reply 0 w) = None ->
  fst (serve_select_investment investmentId (backend w)) = Data row ->
  Investment.end_date row < clock (replied w) ->
  exists w',
    generateDailyProfit toFixed investmentId amount pct w
    = (Returned tt, w',
       [Remote (SelectInvestment investmentId);
        Remote (UpdateInvestment investmentId (SetIsActive false));
        ConsoleLog ("Investment " ++ investmentId ++ " has expired and been deactivated")])
    /\ (forall e, failure (reply 1 w) = Some e ->
          backend w' = backend w
          /\ lookup_investment investmentId (backend w') = Some (investment row)).
Proof.
  destruct w as [now net n b ref]. on_fields. intros H0 Hrow Hexp.
  apply Z.ltb_lt in Hexp.
  unfold generateDailyProfit. run_client. rewrite H0.
  pose proof (select_investment_Data _ _ _ Hrow) as Hone.
  unfold serve_select_investment in Hrow |- *. cbn [fst] in Hrow. rewrite Hrow.
  run_client. rewrite Hexp.
  destruct (failure (net (S n))) as [e |] eqn:H1; run_client.
  - eexists. split; [reflexivity |]. intros e' _. split; [reflexivity |].
    now apply find_of_filter.
  - eexists. split; [reflexivity |]. intros e'. discriminate.
Qed.

(** C2. When the investment fetched has not expired and the update of
    [profit_earned] and the credit both go through, [generateDailyProfit]
    asks for [profit_earned] to be set to its old value plus
    [amount * dailyProfitPercentage / 100] and for that same amount to be
    added to the balance of the user, in this order; afterwards the row holds
    the sum, the balance of the user is the old one plus the amount, and the
    other balances are untouched.  For an amount of 1000 at 2 percent the
    amount credited is 20. *)
Theorem generateDailyProfit_credits toFixed investmentId amount pct
  (w : World) (row : InvestmentWithPlan) :
  failure (reply 0 w) = None ->
  fst (serve_select_investment investmentId (backend w)) = Data row ->
  clock (replied w) <= Investment.end_date row ->
  failure (reply 1 w) = None ->
  failure (reply 2 w) = None ->
  let profit := dailyProfit amount pct in
  let user := Investment.user_id row in
  (exists w' rest,
     generateDailyProfit toFixed investmentId amount pct w
     = (Returned tt, w',
        Remote (SelectInvestment investmentId)
        :: Remote (UpdateInvestment investmentId
             (SetProfitEarned (Investment.profit_earned row + profit)%float))
        :: Remote (UpdateUserBalance user profit add)
        :: rest)
     /\ (exists after,
           lookup_investment investmentId (backend w') = Some after
           /\ Investment.profit_earned after = (Investment.profit_earned row + profit)%float)
     /\ balances (backend w') user = (balances (backend w) user + profit)%float
     /\ (forall other, other <> user -> balances (backend w') other = balances (backend w) other))
  /\ dailyProfit 1000 2 = 20%float.
Proof.
  destruct w as [now net n b ref]. on_fields. intros H0 Hrow Hlive H1 H2 profit user.
  split; [| reflexivity].
  apply Z.ltb_ge in Hlive.
  pose proof (lookup_updated investmentId
                (SetProfitEarned (Investment.profit_earned row + profit)%float)
                b row _ Hrow eq_refl) as Hafter.
  unfold generateDailyProfit. run_client. rewrite H0.
  unfold serve_select_investment in Hrow |- *. cbn [fst] in Hrow. rewrite Hrow.
  run_client. rewrite Hlive, H1. run_client. rewrite H2. run_client.
  destruct (investment_plans row) as [plan |]; run_client;
    [destruct (failure (net (S (S (S n))))) as [e |]; run_client |];
    do 2 eexists; (split; [reflexivity |]);
    cbn [user_investments balances];
    (split; [eexists; split; [exact Hafter | reflexivity] |]);
    (split; [fold user; now rewrite String.eqb_refl |]);
    intros other Hother; fold user;
    (destruct (String.eqb_spec other user); [contradiction | reflexivity]).
Qed.

(** C9. When the update of [profit_earned] has gone through and the credit
    to the balance then fails with [e], [generateDailyProfit] logs [e] and
    returns: it asks for nothing more, so nothing takes the update back and no
    notification is sent; afterwards the row holds the increased
    [profit_earned] and the balances are those from before. *)
Theorem generateDailyProfit_credit_fails toFixed investmentId amount pct
  (w : World) (row : InvestmentWithPlan) (e : JsError) :
  failure (reply 0 w) = None ->
  fst (serve_select_investment investmentId (backend w)) = Data row ->
  clock (replied w) <= Investment.end_date row ->
  failure (reply 1 w) = None ->
  failure (reply 2 w) = Some e ->
  let profit := dailyProfit amount pct in
  exists w',
    generateDailyProfit toFixed investmentId amount pct w
    = (Returned tt, w',
       [Remote (SelectInvestment investmentId);
        Remote (UpdateInvestment investmentId
          (SetProfitEarned (Investment.profit_earned row + profit)%float));
        Remote (UpdateUserBalance (Investment.user_id row) profit add);
        ConsoleError "Error generating daily profit:" e])
    /\ (exists after,
          lookup_investment investmentId (backend w') = Some after
          /\ Investment.profit_earned after = (Investment.profit_earned row + profit)%float)
    /\ balances (backend w') = balances (backend w)
    /\ notifications (backend w') = notifications (backend w).
Proof.
  destruct w as [now net n b ref]. on_fields. intros H0 Hrow Hlive H1 H2 profit.
  apply Z.ltb_ge in Hlive.
  pose proof (lookup_updated investmentId
                (SetProfitEarned (Investment.profit_earned row + profit)%float)
                b row _ Hrow eq_refl) as Hafter.
  unfold generateDailyProfit. run_client. rewrite H0.
  unfold serve_select_investment in Hrow |- *. cbn [fst] in Hrow. rewrite Hrow.
  run_client. rewrite Hlive, H1. run_client. rewrite H2. run_client.
  eexists. split; [reflexivity |]. cbn [user_investments balances notifications].
  split; [eexists; split; [exact Hafter | reflexivity] |]. split; reflexivity.
Qed.

Lemma active_investments_resolve (now : Z) (b : Backend) :
  plans_resolve b ->
  Forall (fun r => investment_plans r <> None) (active_investments now b).
Proof.
  intros H. unfold active_investments. apply Forall_forall. intros r Hr.
  apply in_map_iff in Hr. destruct Hr as (i & <- & Hi).
  apply filter_In in Hi. apply H, Hi.
Qed.

(** [activatePlan] only files investments in a plan it has just read, so what
    it leaves behind still has every investment refer to a plan. *)
Lemma activatePlan_keeps_plans_resolve tza gen_id later planId amount userId
  (w w' : World) (r : Result Investment.t) (tr : list Event) :
  activatePlan tza gen_id later planId amount userId w = (r, w', tr) ->
  plans_resolve (backend w) -> plans_resolve (backend w').
Proof.
  rewrite activatePlan_run. intros Hrun Hfk.
  assert (Hnew : forall plan row b',
            fst (serve_select_plan planId (backend w)) = Data plan ->
            NewInvestment.plan_id row = planId ->
            investment_plans_table b' = investment_plans_table (backend w) ->
            user_investments b'
            = (user_investments (backend w) ++ [stored gen_id (backend w) row])%list ->
            plans_resolve b').
  { intros plan row b' Hplan Hrow Hplans Hrows i Hi. rewrite Hrows in Hi.
    unfold embed_plan. cbn [investment_plans]. rewrite Hplans.
    apply in_app_or in Hi. destruct Hi as [Hi | [<- | []]].
    - apply (Hfk i Hi).
    - cbn [stored Investment.plan_id]. rewrite Hrow.
      unfold serve_select_plan in Hplan. cbn [fst] in Hplan.
      apply single_Data, find_of_filter in Hplan. rewrite Hplan. discriminate. }
  destruct (failure (network w (sent w))); [inversion Hrun; subst; exact Hfk |].
  destruct (fst (serve_select_plan planId (backend w))) as [e | plan] eqn:Hplan;
    [inversion Hrun; subst; exact Hfk |].
  cbv zeta in Hrun.
  destruct (end_date_of tza plan (later (clock (replied w)))) as [end_date |];
    [| inversion Hrun; subst; exact Hfk].
  destruct (failure (network w (S (sent w)))); [inversion Hrun; subst; exact Hfk |].
  destruct (failure (network w (S (S (sent w)))));
    injection Hrun as _ <- _;
    apply (Hnew plan (new_investment (clock (replied w)) end_date planId amount userId)
             _ eq_refl); reflexivity.
Qed.

(** The gate from a world whose clock shows the time of the call. *)
Lemma shouldGenerateProfit_run (tza : JSDate.Zone) (w : World) :
  shouldGenerateProfit tza w =
  let today := date_string_of_day (local_day tza (clock w)) in
  if strict_equal (lastProfitCheckRef w) today then (Returned false, w, [])
  else if in_window tza (clock w)
       then (Returned true, with_lastProfitCheckRef (Some today) w, [])
       else (Returned false, w, []).
Proof.
  unfold shouldGenerateProfit, bind, new_Date, get_lastProfitCheckRef,
    set_lastProfitCheckRef, ret.
  rewrite toDateString_local_day, hours_minutes_window. cbv zeta.
  destruct (strict_equal (lastProfitCheckRef w) _); [reflexivity |].
  destruct (in_window tza (clock w)); reflexivity.
Qed.

(** The loop keeps the day marker, however it ends. *)
Lemma for_each_investment_keeps_marker toFixed (rows : list InvestmentWithPlan) :
  forall (w w' : World) r tr,
    for_each_investment toFixed rows w = (r, w', tr) ->
    lastProfitCheckRef w' = lastProfitCheckRef w.
Proof.
  induction rows as [| row rows IH]; intros w w' r tr; cbn [for_each_investment].
  - intros H. inversion H. reflexivity.
  - unfold bind at 1. destruct (investment_plans row) as [plan |]; cbn [property_of].
    + unfold ret at 1. unfold bind at 1.
      destruct (generateDailyProfit_returns toFixed (Investment.id row)
                  (Number (Investment.amount row))
                  (Number (Plan.daily_profit_percentage plan)) w) as (w1 & tr1 & Hrun & _ & Href).
      rewrite Hrun.
      destruct (for_each_investment toFixed rows w1) as [[r2 w2] tr2] eqn:Hrest.
      intros H. inversion H; subst. rewrite <- Href. eapply IH, Hrest.
    + unfold throw. intros H. inversion H. reflexivity.
Qed.

(** When every row has its plan, the loop starts the processing of every
    row, in order, whatever happens to the rows before it. *)
Lemma for_each_investment_all toFixed (rows : list InvestmentWithPlan) :
  Forall (fun r => investment_plans r <> None) rows ->
  forall w : World,
  exists w' tr,
    for_each_investment toFixed rows w = (Returned tt, w', tr)
    /\ filter_map started tr = map (fun r : InvestmentWithPlan => Investment.id r) rows.
Proof.
  induction 1 as [| row rows Hrow _ IH]; intros w; cbn [for_each_investment].
  - exists w, []. split; reflexivity.
  - destruct (investment_plans row) as [plan |]; [| contradiction]. cbn [property_of].
    unfold bind at 1. unfold ret at 1. unfold bind at 1.
    destruct (generateDailyProfit_returns toFixed (Investment.id row)
                (Number (Investment.amount row))
                (Number (Plan.daily_profit_percentage plan)) w) as (w1 & tr1 & Hrun & Hid & _).
    rewrite Hrun. destruct (IH w1) as (w2 & tr2 & Hrest & Hids). rewrite Hrest.
    exists w2, ([] ++ tr1 ++ tr2)%list. split; [reflexivity |].
    cbn [app map]. now rewrite filter_map_app, Hid, Hids.
Qed.

(** One cycle whose gate opens, in closed form. *)
Lemma cycle_run tza toFixed (w : World) :
  let today := date_string_of_day (local_day tza (clock w)) in
  in_window tza (clock w) = true ->
  lastProfitCheckRef w <> Some today ->
  generateProfitsForActiveInvestments tza toFixed w =
  let w0 := with_lastProfitCheckRef (Some today) w in
  let fetch := Remote (SelectActiveInvestments (clock w)) in
  match failure (reply 0 w) with
  | Some e => (Returned tt, replied w0, [fetch; ConsoleError "Error generating profits:" e])
  | None =>
      let rows := active_investments (clock w) (backend w) in
      let processing :=
        ConsoleLog ("Processing daily profits for "
                    ++ JSDate.decimal (Z.of_nat (List.length rows))
                    ++ " active investments") in
      match for_each_investment toFixed rows (replied w0) with
      | (Returned _, w', tr) => (Returned tt, w', fetch :: processing :: tr)
      | (Thrown e, w', tr) =>
          (Returned tt, w',
           fetch :: processing :: (tr ++ [ConsoleError "Error generating profits:" e])%list)
      end
  end.
Proof.
  intros today Hwin Href.
  unfold generateProfitsForActiveInvestments. unfold bind at 1.
  rewrite shouldGenerateProfit_run. cbv zeta. fold today.
  rewrite (strict_equal_false _ _ Href), Hwin. cbn [negb].
  destruct w as [now net n b ref]. run_client. on_fields.
  destruct (failure (net n)) as [e |]; [reflexivity |].
  destruct (for_each_investment toFixed _ _) as [[[[] | e] w'] tr]; reflexivity.
Qed.

(** A cycle whose gate opens, on a backend in which every investment refers
    to a plan: when the fetch of the batch fails, the error is logged and the
    cycle is over, with nothing asked of the backend besides the fetch (so no
    notification) and the backend as it was; when the fetch goes through, the
    processing of every fetched record is started, in order, whatever the
    replies to the calls made for the records before it, and the cycle
    returns; and when the fetch of the first record fails with [e], that
    error is logged by [generateDailyProfit] and the records after it are
    still all started.  Without the assumption on the backend the second part
    fails, as the run on a batch with a record without plan shows. *)
Lemma cycle_failures tza toFixed (w : World) :
  let today := date_string_of_day (local_day tza (clock w)) in
  let fetch := Remote (SelectActiveInvestments (clock w)) in
  let rows := active_investments (clock w) (backend w) in
  in_window tza (clock w) = true ->
  lastProfitCheckRef w <> Some today ->
  plans_resolve (backend w) ->
  (forall e, failure (reply 0 w) = Some e ->
     exists w',
       generateProfitsForActiveInvestments tza toFixed w
       = (Returned tt, w', [fetch; ConsoleError "Error generating profits:" e])
       /\ backend w' = backend w)
  /\ (failure (reply 0 w) = None ->
      exists w' processing tr,
        generateProfitsForActiveInvestments tza toFixed w
        = (Returned tt, w', fetch :: ConsoleLog processing :: tr)
        /\ filter_map started tr = map (fun r : InvestmentWithPlan => Investment.id r) rows
        /\ (forall first rest e,
              rows = first :: rest -> failure (reply 1 w) = Some e ->
              exists tr',
                tr = Remote (SelectInvestment (Investment.id first))
                     :: ConsoleError "Error generating daily profit:" e :: tr'
                /\ filter_map started tr'
                   = map (fun r : InvestmentWithPlan => Investment.id r) rest)).
Proof.
  intros today fetch rows Hwin Href Hfk.
  pose proof (cycle_run tza toFixed w Hwin Href) as Hrun. cbv zeta in Hrun.
  split.
  - intros e He. rewrite Hrun, He. eexists. split; [reflexivity |].
    destruct w; reflexivity.
  - intros H0. rewrite Hrun, H0. clear Hrun.
    pose proof (active_investments_resolve (clock w) _ Hfk) as Hrows. fold rows in Hrows |- *.
    destruct (for_each_investment_all toFixed rows Hrows
                (replied (with_lastProfitCheckRef (Some today) w)))
      as (w' & tr & Hloop & Hids).
    fold today. rewrite Hloop. exists w'. do 2 eexists. split; [reflexivity |].
    split; [exact Hids |].
    intros first rest e Hsplit H1. rewrite Hsplit in Hloop, Hrows, Hids.
    inversion Hrows as [| ? ? Hfirst Hrest]; subst.
    cbn [for_each_investment] in Hloop.
    destruct (investment_plans first) as [plan |]; [| contradiction].
    cbn [property_of] in Hloop. unfold bind at 1 in Hloop. unfold ret at 1 in Hloop.
    unfold bind at 1 in Hloop.
    assert (Hgen : generateDailyProfit toFixed (Investment.id first)
                     (Number (Investment.amount first))
                     (Number (Plan.daily_profit_percentage plan))
                     (replied (with_lastProfitCheckRef (Some today) w))
                   = (Returned tt,
                      replied (replied (with_lastProfitCheckRef (Some today) w)),
                      [Remote (SelectInvestment (Investment.id first));
                       ConsoleError "Error generating daily profit:" e])).
    { clear Hloop. destruct w as [now net n b ref]. on_fields.
      unfold generateDailyProfit. run_client. rewrite H1. reflexivity. }
    rewrite Hgen in Hloop.
    destruct (for_each_investment_all toFixed rest Hrest
                (replied (replied (with_lastProfitCheckRef (Some today) w))))
      as (w2 & tr2 & Hrest_run & Hrest_ids).
    rewrite Hrest_run in Hloop. inversion Hloop; subst.
    exists tr2. split; [reflexivity | exact Hrest_ids].
Qed.

(** A cycle returns and keeps the marker its gate has set, whatever the
    replies and the rows are. *)
Lemma cycle_marker tza toFixed (w : World) :
  let today := date_string_of_day (local_day tza (clock w)) in
  in_window tza (clock w) = true ->
  lastProfitCheckRef w <> Some today ->
  exists w' tr,
    generateProfitsForActiveInvestments tza toFixed w = (Returned tt, w', tr)
    /\ lastProfitCheckRef w' = Some today.
Proof.
  intros today Hwin Href. rewrite (cycle_run tza toFixed w Hwin Href). cbv zeta. fold today.
  destruct (failure (reply 0 w)) as [e |].
  - do 2 eexists. split; reflexivity.
  - destruct (for_each_investment toFixed _ _) as [[r w'] tr] eqn:Hloop.
    apply for_each_investment_keeps_marker in Hloop. cbn in Hloop.
    destruct r; do 2 eexists; (split; [reflexivity | exact Hloop]).
Qed.

(** C8. When the gate opens, it sets the day marker itself and nothing has
    been asked of the backend by then; the cycle that follows returns with the
    marker still set, whatever happens in it; in particular when the fetch of
    the batch fails the cycle has done nothing but log that, and all the
    same every later call of the gate on that day returns [false], so that a
    later cycle of that day does nothing. *)
Theorem failed_cycle_consumes_trigger tza toFixed (w : World) :
  let today := date_string_of_day (local_day tza (clock w)) in
  in_window tza (clock w) = true ->
  lastProfitCheckRef w <> Some today ->
  shouldGenerateProfit tza w = (Returned true, with_lastProfitCheckRef (Some today) w, [])
  /\ exists w' tr,
       generateProfitsForActiveInvestments tza toFixed w = (Returned tt, w', tr)
       /\ lastProfitCheckRef w' = Some today
       /\ (forall e, failure (reply 0 w) = Some e ->
             tr = [Remote (SelectActiveInvestments (clock w));
                   ConsoleError "Error generating profits:" e]
             /\ backend w' = backend w)
       /\ (forall times,
             Forall (fun t => local_day tza t = local_day tza (clock w)) times ->
             exists w'',
               calls (shouldGenerateProfit tza) times w'
               = (Returned (map (fun _ => false) times), w'', []))
       /\ (forall t, local_day tza t = local_day tza (clock w) ->
             at_time t (generateProfitsForActiveInvestments tza toFixed) w'
             = (Returned tt, with_clock t w', [])).
Proof.
  intros today Hwin Href. split.
  - rewrite shouldGenerateProfit_run. cbv zeta. fold today.
    now rewrite (strict_equal_false _ _ Href), Hwin.
  - destruct (cycle_marker tza toFixed w Hwin Href) as (w' & tr & Hrun & Hmark).
    exists w', tr. split; [exact Hrun |]. split; [exact Hmark |].
    split; [| split].
    + intros e He. rewrite (cycle_run tza toFixed w Hwin Href) in Hrun. cbv zeta in Hrun.
      rewrite He in Hrun. inversion Hrun; subst. split; [reflexivity |].
      destruct w; reflexivity.
    + intros times Hday.
      destruct (calls_after_fired tza _ times Hday w' Hmark) as (w'' & Hcalls & _).
      exists w''. exact Hcalls.
    + intros t Ht. unfold at_time, generateProfitsForActiveInvestments. unfold bind at 1.
      rewrite shouldGenerateProfit_run. cbv zeta. cbn [clock with_clock lastProfitCheckRef].
      rewrite Ht, Hmark. fold today. rewrite strict_equal_same. reflexivity.
Qed.

(** The query function never throws: it resolves to the disabled settings
    unless the read went through and gave a row that is enabled. *)
Lemma queryFn_run (w : World) :
  queryFn w =
  match failure (reply 0 w) with
  | Some _ =>
      (Returned {| enabled := false; siteKey := None |}, replied w,
       [Remote SelectRecaptchaSettings])
  | None =>
      match recaptcha_settings (backend w) with
      | [data] =>
          (Returned (if negb (Recaptcha.is_enabled data)
                     then {| enabled := false; siteKey := None |}
                     else {| enabled := Recaptcha.is_enabled data;
                             siteKey := Some (Recaptcha.site_key data) |}),
           replied w, [Remote SelectRecaptchaSettings])
      | _ =>
          (Returned {| enabled := false; siteKey := None |}, replied w,
           [Remote SelectRecaptchaSettings])
      end
  end.
Proof.
  destruct w as [now net n b ref]. unfold queryFn. run_client. on_fields.
  destruct (failure (net n)); [reflexivity |].
  unfold single. destruct (recaptcha_settings b) as [| data [| data' rows]]; try reflexivity.
  destruct (Recaptcha.is_enabled data); reflexivity.
Qed.

(** C7. When the read of the settings fails, finds no row, or finds the row
    disabled, the query function returns [{ enabled: false }] without
    throwing, the same object in the three cases, having done nothing but the
    read; the component then returns [null], and neither of its effects
    touches the page, whether or not the script is loaded. *)
Theorem RecaptchaWrapper_disabled (w : World) (loaded present : bool) :
  verification_off w ->
  queryFn w = (Returned {| enabled := false; siteKey := None |}, replied w,
               [Remote SelectRecaptchaSettings])
  /\ RecaptchaWrapper (settled w loaded present) = None
  /\ load_effect (settled w loaded present) = []
  /\ render_effect (settled w loaded present) = [].
Proof.
  intros Hoff.
  assert (Hq : queryFn w = (Returned {| enabled := false; siteKey := None |}, replied w,
                            [Remote SelectRecaptchaSettings])).
  { rewrite queryFn_run. destruct Hoff as [(e & He) | [Hnone | (data & Hone & Hdis)]].
    - now rewrite He.
    - rewrite Hnone. now destruct (failure (reply 0 w)).
    - rewrite Hone, Hdis. now destruct (failure (reply 0 w)). }
  split; [exact Hq |].
  unfold settled, useQuery, try_catch, bind. rewrite Hq. cbn.
  unfold render_effect. cbn. rewrite andb_false_r. repeat split.
Qed.

(** ** Concrete runs *)

Example toFixed_decimal_20 : toFixed_decimal (dailyProfit 1000 2) 2 = "20.00".
Proof. reflexivity. Qed.

(** One minute after midnight the daily profit of the ten days old
    investment is credited: 20.00 on 1000 at 2 percent. *)
Example generateDailyProfit_sample :
  snd (generateDailyProfit toFixed_decimal "inv-1" 1000 2 (loaded_at (midnight + 60000) (fun _ => quiet)))
  = [Remote (SelectInvestment "inv-1");
     Remote (UpdateInvestment "inv-1" (SetProfitEarned 200));
     Remote (UpdateUserBalance "user-1" 20 add);
     Remote (SendUserNotification
       {| Notification.p_user_id := "user-1";
          Notification.p_title := "Daily Profit Credited";
          Notification.p_message :=
            "$20.00 profit has been credited to your account from Starter";
          Notification.p_type := "success" |});
     ConsoleLog "Daily profit of $20.00 credited for investment inv-1"].
Proof. vm_compute. reflexivity. Qed.

(** The cycle of that minute: the lapsed investment is not fetched, the two
    others are processed. *)
Example cycle_sample :
  filter_map started
    (snd (generateProfitsForActiveInvestments utc_plus_1 toFixed_decimal
            (loaded_at (midnight + 60000) (fun _ => quiet))))
  = ["inv-1"; "inv-3"].
Proof. vm_compute. reflexivity. Qed.

(** Calls at 00:01, 00:02 and 01:00 of 2 November: one [true]. *)
Lemma shouldGenerateProfit_once_per_day_witness :
  exists results w',
    calls (shouldGenerateProfit utc_plus_1)
      [midnight + 60000; midnight + 120000; midnight + 3600000]
      (loaded_at midnight (fun _ => quiet))
    = (Returned results, w', [])
    /\ count_occ bool_dec results true = 1%nat
    /\ nth_error results 2 = Some false.
Proof.
  destruct (shouldGenerateProfit_once_per_day utc_plus_1 (local_day utc_plus_1 midnight)
              [midnight + 60000; midnight + 120000; midnight + 3600000]
              (loaded_at midnight (fun _ => quiet)))
    as (results & w' & Hrun & _ & Hout & _ & Hone & _).
  - repeat (apply Forall_cons; [vm_compute; reflexivity |]). apply Forall_nil.
  - discriminate.
  - exists results, w'. split; [exact Hrun |]. split.
    + apply Hone. exists (midnight + 60000). split; [now left | reflexivity].
    + apply (Hout 2%nat (midnight + 3600000)); reflexivity.
Defined.




Lemma activatePlan_failure_witness :
  let w := loaded_at (midnight + 36000000) (failing_at 2) in
  let row := new_investment (midnight + 36000120)
               (midnight + 36000120 + 30 * JSDate.msPerDay) "plan-1" 250 "user-1" in
  exists w',
    activatePlan utc_plus_1 serial_id at_once "plan-1" 250 "user-1" w
    = (Thrown timeout, w',
       [Remote (SelectPlan "plan-1"); Remote (InsertInvestment row);
        Remote (UpdateUserBalance "user-1" 250 remove);
        ConsoleError "Error activating plan:" timeout;
        Toast {| title := "Activation Failed";
                 description := "Failed to activate plan. Please try again.";
                 variant := destructive |}])
    /\ user_investments (backend w')
       = (user_investments (backend w) ++ [stored serial_id (backend w) row])%list
    /\ balances (backend w') = balances (backend w).
Proof.
  apply (proj2 (proj2 (proj1 (proj2
           (activatePlan_failure utc_plus_1 serial_id at_once "plan-1" 250 "user-1"
              (loaded_at (midnight + 36000000) (failing_at 2))))
           starter eq_refl eq_refl)
           (midnight + 36000120 + 30 * JSDate.msPerDay) eq_refl)
           timeout eq_refl eq_refl).
Defined.

(** A plan of a hundred million days: the end date is out of range, the call
    throws a [RangeError] with the plan read as its only request. *)
Example activatePlan_out_of_range :
  let eternal := {| Plan.id := "plan-1"; Plan.name := "Eternal";
                    Plan.duration_days := 100000000;
                    Plan.daily_profit_percentage := 2%float |} in
  let b := {| investment_plans_table := [eternal]; user_investments := [];
              balances := fun _ => 500%float; notifications := [];
              recaptcha_settings := [] |} in
  let run := activatePlan utc_plus_1 serial_id at_once "plan-1" 250 "user-1"
               (loaded_with b midnight (fun _ => quiet)) in
  fst (fst run) = Thrown (RangeError "Invalid time value")
  /\ snd run = [Remote (SelectPlan "plan-1");
                ConsoleError "Error activating plan:" (RangeError "Invalid time value");
                Toast activation_failed].
Proof. vm_compute. split; reflexivity. Qed.

Lemma generateDailyProfit_credits_witness :
  let w := loaded_at (midnight + 60000) (fun _ => quiet) in
  (exists w' rest,
     generateDailyProfit toFixed_decimal "inv-1" 1000 2 w
     = (Returned tt, w',
        Remote (SelectInvestment "inv-1")
        :: Remote (UpdateInvestment "inv-1" (SetProfitEarned (180 + dailyProfit 1000 2)%float))
        :: Remote (UpdateUserBalance "user-1" (dailyProfit 1000 2) add)
        :: rest)
     /\ (exists after,
           lookup_investment "inv-1" (backend w') = Some after
           /\ Investment.profit_earned after = (180 + dailyProfit 1000 2)%float)
     /\ balances (backend w') "user-1" = (500 + dailyProfit 1000 2)%float
     /\ (forall user, user <> "user-1" ->
           balances (backend w') user = balances (backend w) user))
  /\ dailyProfit 1000 2 = 20%float.
Proof.
  apply (generateDailyProfit_credits toFixed_decimal "inv-1" 1000 2
           (loaded_at (midnight + 60000) (fun _ => quiet))
           (embed_plan sample_backend running));
    try reflexivity.
  vm_compute. discriminate.
Defined.

Lemma generateDailyProfit_expired_witness :
  let w := loaded_at (midnight + 60000) (fun _ => quiet) in
  exists w',
    generateDailyProfit toFixed_decimal "inv-2" 400 2 w
    = (Returned tt, w',
       [Remote (SelectInvestment "inv-2");
        Remote (UpdateInvestment "inv-2" (SetIsActive false));
        ConsoleLog "Investment inv-2 has expired and been deactivated"])
    /\ map Investment.profit_earned (user_investments (backend w'))
       = map Investment.profit_earned (user_investments (backend w))
    /\ balances (backend w') = balances (backend w)
    /\ notifications (backend w') = notifications (backend w)
    /\ (failure (reply 1 w) = None ->
        exists after,
          lookup_investment "inv-2" (backend w') = Some after
          /\ Investment.is_active after = false
          /\ Investment.profit_earned after = 240%float).
Proof.
  apply (generateDailyProfit_expired toFixed_decimal "inv-2" 400 2
           (loaded_at (midnight + 60000) (fun _ => quiet))
           (embed_plan sample_backend lapsed));
    reflexivity.
Defined.

Lemma generateDailyProfit_expiry_update_unchecked_witness :
  let w := loaded_at (midnight + 60000) (failing_at 1) in
  exists w',
    generateDailyProfit toFixed_decimal "inv-2" 400 2 w
    = (Returned tt, w',
       [Remote (SelectInvestment "inv-2");
        Remote (UpdateInvestment "inv-2" (SetIsActive false));
        ConsoleLog "Investment inv-2 has expired and been deactivated"])
    /\ (forall e, failure (reply 1 w) = Some e ->
          backend w' = backend w
          /\ lookup_investment "inv-2" (backend w') = Some lapsed).
Proof.
  apply (generateDailyProfit_expiry_update_unchecked toFixed_decimal "inv-2" 400 2
           (loaded_at (midnight + 60000) (failing_at 1))
           (embed_plan sample_backend lapsed));
    reflexivity.
Defined.

Lemma generateDailyProfit_credit_fails_witness :
  let w := loaded_at (midnight + 60000) (failing_at 2) in
  exists w',
    generateDailyProfit toFixed_decimal "inv-1" 1000 2 w
    = (Returned tt, w',
       [Remote (SelectInvestment "inv-1");
        Remote (UpdateInvestment "inv-1" (SetProfitEarned (180 + dailyProfit 1000 2)%float));
        Remote (UpdateUserBalance "user-1" (dailyProfit 1000 2) add);
        ConsoleError "Error generating daily profit:" timeout])
    /\ (exists after,
          lookup_investment "inv-1" (backend w') = Some after
          /\ Investment.profit_earned after = (180 + dailyProfit 1000 2)%float)
    /\ balances (backend w') = balances (backend w)
    /\ notifications (backend w') = notifications (backend w).
Proof.
  apply (generateDailyProfit_credit_fails toFixed_decimal "inv-1" 1000 2
           (loaded_at (midnight + 60000) (failing_at 2))
           (embed_plan sample_backend running) timeout);
    try reflexivity.
  vm_compute. discriminate.
Defined.

Lemma sample_backend_resolves : plans_resolve sample_backend.
Proof. intros i [<- | [<- | [<- | []]]]; discriminate. Qed.

(** The fetch of the first of the two records fails; the second one is
    processed all the same. *)
Example cycle_failures_first_record :
  exists w' processing tr',
    generateProfitsForActiveInvestments utc_plus_1 toFixed_decimal
      (loaded_at (midnight + 60000) (failing_at 1))
    = (Returned tt, w',
       Remote (SelectActiveInvestments (midnight + 60000)) :: ConsoleLog processing
       :: Remote (SelectInvestment "inv-1")
       :: ConsoleError "Error generating daily profit:" timeout :: tr')
    /\ filter_map started tr' = ["inv-3"].
Proof.
  pose (w := loaded_at (midnight + 60000) (failing_at 1)).
  destruct (proj2 (cycle_failures utc_plus_1 toFixed_decimal w
                     eq_refl ltac:(discriminate) sample_backend_resolves) eq_refl)
    as (w' & processing & tr & Hrun & _ & Hfirst).
  destruct (Hfirst (embed_plan sample_backend running) [embed_plan sample_backend other]
              timeout eq_refl eq_refl) as (tr' & Htr & Hrest).
  exists w', processing, tr'. split; [| exact Hrest].
  rewrite Htr in Hrun. exact Hrun.
Qed.

(** C6. The cycle at 00:01 on a batch of three records of which the second,
    [inv-5], has no plan embedded.  The first record is credited.  For the
    second, the argument [investment.investment_plans.daily_profit_percentage]
    of the call in the loop throws a [TypeError] before [generateDailyProfit]
    is entered, so the catch inside that function does not see it: the catch
    around the loop logs it and the cycle is over.  The third record,
    [inv-3], is never started, and its row is left as it was. *)
Theorem cycle_aborts_at_record_without_plan :
  let w := loaded_with orphan_backend (midnight + 60000) (fun _ => quiet) in
  let run := generateProfitsForActiveInvestments utc_plus_1 toFixed_decimal w in
  map (fun r : InvestmentWithPlan => (Investment.id r, option_map Plan.name (investment_plans r)))
    (active_investments (clock w) (backend w))
  = [("inv-1", Some "Starter"); ("inv-5", None); ("inv-3", Some "Starter")]
  /\ fst (fst run) = Returned tt
  /\ snd run
     = [Remote (SelectActiveInvestments (midnight + 60000));
        ConsoleLog "Processing daily profits for 3 active investments";
        Remote (SelectInvestment "inv-1");
        Remote (UpdateInvestment "inv-1" (SetProfitEarned 200));
        Remote (UpdateUserBalance "user-1" 20 add);
        Remote (SendUserNotification
                  {| Notification.p_user_id := "user-1";
                     Notification.p_title := "Daily Profit Credited";
                     Notification.p_message :=
                       "$20.00 profit has been credited to your account from Starter";
                     Notification.p_type := "success" |});
        ConsoleLog "Daily profit of $20.00 credited for investment inv-1";
        ConsoleError "Error generating profits:"
          (TypeError "Cannot read properties of null")]
  /\ filter_map started (snd run) = ["inv-1"]
  /\ lookup_investment "inv-3" (backend (snd (fst run))) = Some other
  /\ balances (backend (snd (fst run))) "user-2" = balances (backend w) "user-2".
Proof. vm_compute. repeat split. Qed.

Lemma RecaptchaWrapper_disabled_witness :
  let w := loaded_at midnight (fun _ => quiet) in
  queryFn w = (Returned {| enabled := false; siteKey := None |}, replied w,
               [Remote SelectRecaptchaSettings])
  /\ RecaptchaWrapper (settled w true true) = None
  /\ load_effect (settled w true true) = []
  /\ render_effect (settled w true true) = [].
Proof.
  apply (RecaptchaWrapper_disabled (loaded_at midnight (fun _ => quiet)) true true).
  right. right. eexists. split; reflexivity.
Defined.

(** The fetch of the batch fails at 00:01; the checks at 00:03 and at 13:00
    find the day used up. *)
Lemma failed_cycle_consumes_trigger_witness :
  exists w' w'',
    generateProfitsForActiveInvestments utc_plus_1 toFixed_decimal
      (loaded_at (midnight + 60000) (failing_at 0))
    = (Returned tt, w',
       [Remote (SelectActiveInvestments (midnight + 60000));
        ConsoleError "Error generating profits:" timeout])
    /\ calls (shouldGenerateProfit utc_plus_1) [midnight + 180000; midnight + 46800000] w'
       = (Returned [false; false], w'', []).
Proof.
  pose (w := loaded_at (midnight + 60000) (failing_at 0)).
  destruct (proj2 (failed_cycle_consumes_trigger utc_plus_1 toFixed_decimal w
                     eq_refl ltac:(discriminate)))
    as (w' & tr & Hrun & _ & Hfail & Hlater & _).
  destruct (Hfail timeout eq_refl) as (Htr & _).
  destruct (Hlater [midnight + 180000; midnight + 46800000]) as (w'' & Hcalls).
  - repeat (apply Forall_cons; [vm_compute; reflexivity |]). apply Forall_nil.
  - exists w', w''. split; [rewrite Htr in Hrun; exact Hrun | exact Hcalls].
Defined.

(** * Further properties *)

(** [generateDailyProfit] in closed form: one case for each way it can go. *)
Lemma generateDailyProfit_run toFixed investmentId amount pct (w : World) :
  generateDailyProfit toFixed investmentId amount pct w =
  let profit := dailyProfit amount pct in
  let fetch := Remote (SelectInvestment investmentId) in
  let failed := ConsoleError "Error generating daily profit:" in
  match failure (reply 0 w) with
  | Some e => (Returned tt, replied w, [fetch; failed e])
  | None =>
    match fst (serve_select_investment investmentId (backend w)) with
    | Failed e => (Returned tt, replied w, [fetch; failed e])
    | Data row =>
      if Investment.end_date row <? clock (replied w)
      then
        let deactivate := Remote (UpdateInvestment investmentId (SetIsActive false)) in
        let logged :=
          ConsoleLog ("Investment " ++ investmentId ++ " has expired and been deactivated") in
        match failure (reply 1 w) with
        | Some _ => (Returned tt, replied (replied w), [fetch; deactivate; logged])
        | None =>
            (Returned tt,
             with_backend (snd (serve_update_investment investmentId (SetIsActive false)
                                  (backend w)))
               (replied (replied w)),
             [fetch; deactivate; logged])
        end
      else
        let u := SetProfitEarned (Investment.profit_earned row + profit)%float in
        let update := Remote (UpdateInvestment investmentId u) in
        let credit := Remote (UpdateUserBalance (Investment.user_id row) profit add) in
        match failure (reply 1 w) with
        | Some e => (Returned tt, replied (replied w), [fetch; update; failed e])
        | None =>
          let b1 := snd (serve_update_investment investmentId u (backend w)) in
          match failure (reply 2 w) with
          | Some e =>
              (Returned tt, with_backend b1 (replied (replied (replied w))),
               [fetch; update; credit; failed e])
          | None =>
            let b2 := snd (serve_update_user_balance (Investment.user_id row) profit add b1) in
            match investment_plans row with
            | None =>
                (Returned tt, with_backend b2 (replied (replied (replied w))),
                 [fetch; update; credit; failed (TypeError "Cannot read properties of null")])
            | Some plan =>
              let n := profit_notification toFixed row plan profit in
              let logged :=
                ConsoleLog ("Daily profit of $" ++ toFixed profit 2
                            ++ " credited for investment " ++ investmentId) in
              match failure (reply 3 w) with
              | Some _ =>
                  (Returned tt, with_backend b2 (replied (replied (replied (replied w)))),
                   [fetch; update; credit; Remote (SendUserNotification n); logged])
              | None =>
                  (Returned tt,
                   with_backend (snd (serve_send_user_notification n b2))
                     (replied (replied (replied (replied w)))),
                   [fetch; update; credit; Remote (SendUserNotification n); logged])
              end
            end
          end
        end
    end
  end.
Proof.
  destruct w as [now net n b ref]. unfold generateDailyProfit. run_client. on_fields.
  destruct (failure (net n)) as [e |]; [reflexivity |].
  destruct (single _) as [e | row]; [reflexivity |].
  destruct (Investment.end_date row <? now + elapsed (net n)).
  - destruct (failure (net (S n))); reflexivity.
  - destruct (failure (net (S n))); [reflexivity |].
    destruct (failure (net (S (S n)))); [reflexivity |].
    destruct (investment_plans row); [| reflexivity].
    destruct (failure (net (S (S (S n))))); reflexivity.
Qed.

Lemma single_length {A} (rows : list A) (row : A) :
  single rows = Data row -> List.length rows = 1%nat.
Proof. intros H. apply single_Data in H. now rewrite H. Qed.

Lemma updated_fixed_part investmentId (u : InvestmentUpdate) (rows : list Investment.t) :
  map fixed_part (updated investmentId u rows) = map fixed_part rows.
Proof.
  unfold updated. rewrite map_map. apply map_ext. intros i.
  destruct (Investment.id i =? investmentId)%string; reflexivity.
Qed.

Lemma fixed_part_ids (rows rows' : list Investment.t) :
  map fixed_part rows' = map fixed_part rows ->
  map Investment.id rows' = map Investment.id rows.
Proof.
  intros H.
  assert (E : forall l, map Investment.id l
                        = map (fun p => fst (fst (fst (fst (fst p))))) (map fixed_part l))
    by (intros l; rewrite map_map; reflexivity).
  now rewrite (E rows'), (E rows), H.
Qed.

Lemma updated_others investmentId (u : InvestmentUpdate) (rows : list Investment.t) :
  filter (fun i => negb (has_id investmentId i)) (updated investmentId u rows)
  = filter (fun i => negb (has_id investmentId i)) rows.
Proof.
  unfold updated, has_id.
  induction rows as [| i rows IH]; cbn [map filter]; [reflexivity |].
  destruct (Investment.id i =? investmentId)%string eqn:E;
    cbn [apply_update Investment.id]; rewrite E; cbn [negb]; now rewrite IH.
Qed.

Lemma updated_keeps_other investmentId (u : InvestmentUpdate) (rows : list Investment.t)
  (i : Investment.t) :
  has_id investmentId i = false -> In i rows -> In i (updated investmentId u rows).
Proof.
  intros Hid Hin. unfold updated. apply in_map_iff. exists i. split; [| exact Hin].
  unfold has_id in Hid. now rewrite Hid.
Qed.

(** What one run of [generateDailyProfit] can have done, whatever the
    replies: it returns, the plans are as before, the investments are as
    before or one update of the rows with the given id away from that, and it
    has asked for no change of a balance or for one credit of the daily
    profit. *)
Lemma generateDailyProfit_effects toFixed investmentId amount pct (w : World) :
  exists w' tr,
    generateDailyProfit toFixed investmentId amount pct w = (Returned tt, w', tr)
    /\ investment_plans_table (backend w') = investment_plans_table (backend w)
    /\ (user_investments (backend w') = user_investments (backend w)
        \/ exists u, user_investments (backend w')
                     = updated investmentId u (user_investments (backend w)))
    /\ ((filter_map balance_request tr = [] /\ balances (backend w') = balances (backend w))
        \/ exists user, filter_map balance_request tr
                        = [(user, dailyProfit amount pct, add)]).
Proof.
  rewrite generateDailyProfit_run. cbv zeta.
  destruct (failure (reply 0 w)).
  { do 2 eexists. split; [reflexivity |]. repeat split; auto. }
  destruct (fst (serve_select_investment investmentId (backend w))) as [e | row].
  { do 2 eexists. split; [reflexivity |]. repeat split; auto. }
  destruct (Investment.end_date row <? clock (replied w)).
  - destruct (failure (reply 1 w)); do 2 eexists; (split; [reflexivity |]);
      cbn [backend with_backend replied serve_update_investment snd
           investment_plans_table user_investments balances filter_map balance_request];
      repeat split; auto.
    right. eexists. reflexivity.
  - destruct (failure (reply 1 w)).
    { do 2 eexists. split; [reflexivity |]. repeat split; auto. }
    destruct (failure (reply 2 w)).
    { do 2 eexists. split; [reflexivity |].
      cbn [backend with_backend replied serve_update_investment snd
           investment_plans_table user_investments balances filter_map balance_request].
      split; [reflexivity |]. split; [right; eexists; reflexivity |].
      right. eexists. reflexivity. }
    destruct (investment_plans row) as [plan |];
      [destruct (failure (reply 3 w)) |];
      do 2 eexists; (split; [reflexivity |]);
      cbn [backend with_backend replied serve_update_investment serve_update_user_balance
           serve_send_user_notification snd
           investment_plans_table user_investments balances filter_map balance_request];
      (split; [reflexivity |]); (split; [right; eexists; reflexivity |]);
      right; eexists; reflexivity.
Qed.

(** X1. [generateDailyProfit] for an id that no row or more than one row of
    [user_investments] has: the error of the read is logged and nothing else
    is asked of the backend, which stays as it was. *)
Theorem generateDailyProfit_unknown_investment toFixed investmentId amount pct (w : World) :
  List.length (filter (has_id investmentId) (user_investments (backend w))) <> 1%nat ->
  exists e w',
    generateDailyProfit toFixed investmentId amount pct w
    = (Returned tt, w',
       [Remote (SelectInvestment investmentId);
        ConsoleError "Error generating daily profit:" e])
    /\ backend w' = backend w.
Proof.
  intros Hrows. rewrite generateDailyProfit_run. cbv zeta.
  destruct (failure (reply 0 w)) as [e |].
  { exists e. eexists. split; reflexivity. }
  destruct (fst (serve_select_investment investmentId (backend w))) as [e | row] eqn:Hrow.
  { exists e. eexists. split; reflexivity. }
  exfalso. apply Hrows. apply select_investment_Data in Hrow. now rewrite Hrow.
Qed.

(** X2. When the update of [profit_earned] fails with [e], nothing is credited:
    [e] is logged, no balance request is made and the backend stays as it
    was. *)
Theorem generateDailyProfit_update_fails toFixed investmentId amount pct
  (w : World) (row : InvestmentWithPlan) (e : JsError) :
  failure (reply 0 w) = None ->
  fst (serve_select_investment investmentId (backend w)) = Data row ->
  clock (replied w) <= Investment.end_date row ->
  failure (reply 1 w) = Some e ->
  exists w',
    generateDailyProfit toFixed investmentId amount pct w
    = (Returned tt, w',
       [Remote (SelectInvestment investmentId);
        Remote (UpdateInvestment investmentId
          (SetProfitEarned (Investment.profit_earned row + dailyProfit amount pct)%float));
        ConsoleError "Error generating daily profit:" e])
    /\ backend w' = backend w.
Proof.
  intros H0 Hrow Hlive H1. apply Z.ltb_ge in Hlive.
  rewrite generateDailyProfit_run. cbv zeta. rewrite H0, Hrow, Hlive, H1.
  eexists. split; reflexivity.
Qed.

(** X3. The result of [send_user_notification] is not looked at: when the
    profit has been credited and the notification fails, the run logs the
    credit as done and no error; the credit stays and no notification is
    filed. *)
Theorem generateDailyProfit_notification_unchecked toFixed investmentId amount pct
  (w : World) (row : InvestmentWithPlan) (plan : Plan.t) (e : JsError) :
  failure (reply 0 w) = None ->
  fst (serve_select_investment investmentId (backend w)) = Data row ->
  clock (replied w) <= Investment.end_date row ->
  failure (reply 1 w) = None ->
  failure (reply 2 w) = None ->
  investment_plans row = Some plan ->
  failure (reply 3 w) = Some e ->
  let profit := dailyProfit amount pct in
  exists w',
    generateDailyProfit toFixed investmentId amount pct w
    = (Returned tt, w',
       [Remote (SelectInvestment investmentId);
        Remote (UpdateInvestment investmentId
          (SetProfitEarned (Investment.profit_earned row + profit)%float));
        Remote (UpdateUserBalance (Investment.user_id row) profit add);
        Remote (SendUserNotification (profit_notification toFixed row plan profit));
        ConsoleLog ("Daily profit of $" ++ toFixed profit 2
                    ++ " credited for investment " ++ investmentId)])
    /\ balances (backend w') (Investment.user_id row)
       = (balances (backend w) (Investment.user_id row) + profit)%float
    /\ notifications (backend w') = notifications (backend w).
Proof.
  intros H0 Hrow Hlive H1 H2 Hplan H3 profit. apply Z.ltb_ge in Hlive.
  rewrite generateDailyProfit_run. cbv zeta. rewrite H0, Hrow, Hlive, H1, H2, Hplan, H3.
  eexists. split; [reflexivity |].
  cbn [backend with_backend serve_update_user_balance serve_update_investment snd
       balances notifications].
  rewrite String.eqb_refl. split; reflexivity.
Qed.

(** X4. When the row fetched has no plan embedded, the profit is credited all
    the same, and only then does reading the name of the plan throw: the
    [TypeError] is logged and no notification is asked for. *)
Theorem generateDailyProfit_without_plan toFixed investmentId amount pct
  (w : World) (row : InvestmentWithPlan) :
  failure (reply 0 w) = None ->
  fst (serve_select_investment investmentId (backend w)) = Data row ->
  clock (replied w) <= Investment.end_date row ->
  failure (reply 1 w) = None ->
  failure (reply 2 w) = None ->
  investment_plans row = None ->
  let profit := dailyProfit amount pct in
  exists w',
    generateDailyProfit toFixed investmentId amount pct w
    = (Returned tt, w',
       [Remote (SelectInvestment investmentId);
        Remote (UpdateInvestment investmentId
          (SetProfitEarned (Investment.profit_earned row + profit)%float));
        Remote (UpdateUserBalance (Investment.user_id row) profit add);
        ConsoleError "Error generating daily profit:"
          (TypeError "Cannot read properties of null")])
    /\ balances (backend w') (Investment.user_id row)
       = (balances (backend w) (Investment.user_id row) + profit)%float
    /\ notifications (backend w') = notifications (backend w).
Proof.
  intros H0 Hrow Hlive H1 H2 Hplan profit. apply Z.ltb_ge in Hlive.
  rewrite generateDailyProfit_run. cbv zeta. rewrite H0, Hrow, Hlive, H1, H2, Hplan.
  eexists. split; [reflexivity |].
  cbn [backend with_backend serve_update_user_balance serve_update_investment snd
       balances notifications].
  rewrite String.eqb_refl. split; reflexivity.
Qed.

(** X5. Whatever the replies, one run of [generateDailyProfit] returns without
    throwing; it inserts and deletes no row, changes nothing of a row but
    [is_active] and [profit_earned], and leaves the rows with another id and
    the plans untouched; and the only change of a balance it
    can ask for is one credit of [amount * dailyProfitPercentage / 100], never
    a debit. *)
Theorem generateDailyProfit_frame toFixed investmentId amount pct (w : World) :
  exists w' tr,
    generateDailyProfit toFixed investmentId amount pct w = (Returned tt, w', tr)
    /\ investment_plans_table (backend w') = investment_plans_table (backend w)
    /\ map fixed_part (user_investments (backend w'))
       = map fixed_part (user_investments (backend w))
    /\ filter (fun i => negb (has_id investmentId i)) (user_investments (backend w'))
       = filter (fun i => negb (has_id investmentId i)) (user_investments (backend w))
    /\ (filter_map balance_request tr = []
        \/ exists user, filter_map balance_request tr
                        = [(user, dailyProfit amount pct, add)]).
Proof.
  destruct (generateDailyProfit_effects toFixed investmentId amount pct w)
    as (w' & tr & Hrun & Hplans & Hrows & Hcredit).
  exists w', tr. split; [exact Hrun |]. split; [exact Hplans |].
  split; [| split].
  - destruct Hrows as [-> | (u & ->)]; [reflexivity | apply updated_fixed_part].
  - destruct Hrows as [-> | (u & ->)]; [reflexivity | apply updated_others].
  - destruct Hcredit as [[Hnone _] | Hone]; [now left | now right].
Qed.

Lemma strict_equal_true (ref : option string) (s : string) :
  strict_equal ref s = true -> ref = Some s.
Proof.
  destruct ref as [r |]; cbn; [| discriminate].
  intros H. apply String.eqb_eq in H. now subst.
Qed.

(** A check whose gate stays shut does nothing at all. *)
Lemma cycle_closed tza toFixed (w : World) :
  in_window tza (clock w) = false
  \/ lastProfitCheckRef w = Some (date_string_of_day (local_day tza (clock w))) ->
  generateProfitsForActiveInvestments tza toFixed w = (Returned tt, w, []).
Proof.
  intros H. unfold generateProfitsForActiveInvestments. unfold bind at 1.
  rewrite shouldGenerateProfit_run. cbv zeta.
  destruct H as [H | H].
  - rewrite H. destruct (strict_equal _ _); reflexivity.
  - rewrite H, strict_equal_same. reflexivity.
Qed.

Lemma cycle_closed_at tza toFixed (t : Z) (w : World) :
  in_window tza t = false
  \/ lastProfitCheckRef w = Some (date_string_of_day (local_day tza t)) ->
  at_time t (generateProfitsForActiveInvestments tza toFixed) w
  = (Returned tt, with_clock t w, []).
Proof.
  intros H. unfold at_time. apply cycle_closed. exact H.
Qed.

(** X6. A check made outside the first five minutes after local midnight, or
    on a day whose date string the marker already holds, asks nothing of the
    backend, shows and logs nothing, and leaves everything but the clock as it
    was. *)
Theorem check_outside_window_does_nothing tza toFixed (t : Z) (w : World) :
  in_window tza t = false
  \/ lastProfitCheckRef w = Some (date_string_of_day (local_day tza t)) ->
  at_time t (generateProfitsForActiveInvestments tza toFixed) w
  = (Returned tt, with_clock t w, []).
Proof. exact (cycle_closed_at tza toFixed t w). Qed.

Lemma Forall2_no_credits (rows : list InvestmentWithPlan) :
  Forall2 credits_of rows (map (fun _ => []) rows)
  /\ List.concat (map (fun _ : InvestmentWithPlan => @nil (string * float * BalanceOperation)) rows)
     = [].
Proof.
  induction rows as [| r rows [IH1 IH2]]; cbn; split; auto.
  constructor; [now left | exact IH1].
Qed.

(** What the loop over the fetched records can have done, however it ends. *)
Lemma for_each_investment_effects toFixed (rows : list InvestmentWithPlan) :
  forall (w w' : World) res tr,
    for_each_investment toFixed rows w = (res, w', tr) ->
    investment_plans_table (backend w') = investment_plans_table (backend w)
    /\ map fixed_part (user_investments (backend w'))
       = map fixed_part (user_investments (backend w))
    /\ (forall i, In i (user_investments (backend w)) ->
                  (forall r : InvestmentWithPlan,
                     In r rows -> Investment.id r <> Investment.id i) ->
                  In i (user_investments (backend w')))
    /\ exists per, Forall2 credits_of rows per
                   /\ filter_map balance_request tr = List.concat per.
Proof.
  induction rows as [| row rows IH]; intros w w' res tr; cbn [for_each_investment].
  - intros H. inversion H; subst. repeat split; auto. exists []. split; [constructor | reflexivity].
  - unfold bind at 1. destruct (investment_plans row) as [plan |] eqn:Hplan; cbn [property_of].
    + unfold ret at 1. unfold bind at 1.
      destruct (generateDailyProfit_effects toFixed (Investment.id row)
                  (Number (Investment.amount row))
                  (Number (Plan.daily_profit_percentage plan)) w)
        as (w1 & tr1 & Hrun & Hplans & Hrows & Hcredit).
      rewrite Hrun.
      destruct (for_each_investment toFixed rows w1) as [[r2 w2] tr2] eqn:Hrest.
      intros H. inversion H; subst; clear H.
      destruct (IH _ _ _ _ Hrest) as (Hplans2 & Hids2 & Hkeep2 & per & Hper & Hcs).
      split; [now rewrite Hplans2 |]. split; [| split].
      * rewrite Hids2. destruct Hrows as [-> | (u & ->)]; [reflexivity | apply updated_fixed_part].
      * intros i Hi Hother. apply Hkeep2; [| intros r Hr; apply Hother; now right].
        destruct Hrows as [-> | (u & ->)]; [exact Hi |].
        apply updated_keeps_other; [| exact Hi].
        unfold has_id. apply String.eqb_neq. intros E. apply (Hother row); [now left | now symmetry].
      * cbn [app]. rewrite filter_map_app, Hcs.
        destruct Hcredit as [[Hnone _] | (user & Hone)].
        -- exists ([] :: per). split; [constructor; [now left | exact Hper] |].
           now rewrite Hnone.
        -- exists ([(user, dailyProfit (Investment.amount row)
                             (Plan.daily_profit_percentage plan), add)] :: per).
           split; [constructor; [right; now exists user, plan | exact Hper] |].
           now rewrite Hone.
    + unfold throw. intros H. inversion H; subst; clear H.
      repeat split; auto.
      exists ([] :: map (fun _ => []) rows).
      destruct (Forall2_no_credits rows) as [Hper Hnil].
      split; [constructor; [now left | exact Hper] |].
      cbn. now rewrite Hnil.
Qed.

(** The loop starts the processing of fetched records only. *)
Lemma for_each_investment_started toFixed (rows : list InvestmentWithPlan) :
  forall (w w' : World) res tr,
    for_each_investment toFixed rows w = (res, w', tr) ->
    forall investmentId,
      In investmentId (filter_map started tr) ->
      In investmentId (map (fun r : InvestmentWithPlan => Investment.id r) rows).
Proof.
  induction rows as [| row rows IH]; intros w w' res tr; cbn [for_each_investment].
  - intros H. inversion H; subst. intros ? [].
  - unfold bind at 1. destruct (investment_plans row) as [plan |]; cbn [property_of].
    + unfold ret at 1. unfold bind at 1.
      destruct (generateDailyProfit_returns toFixed (Investment.id row)
                  (Number (Investment.amount row))
                  (Number (Plan.daily_profit_percentage plan)) w)
        as (w1 & tr1 & Hrun & Hid & _).
      rewrite Hrun.
      destruct (for_each_investment toFixed rows w1) as [[r2 w2] tr2] eqn:Hrest.
      intros H. inversion H; subst; clear H.
      intros investmentId. cbn [app]. rewrite filter_map_app, Hid. cbn [app map].
      intros [<- | Hin]; [now left | right; eapply IH; eassumption].
    + unfold throw. intros H. inversion H; subst. intros ? [].
Qed.

(** A cycle never throws; what it can have done is what its loop can have
    done over the records it fetched. *)
Lemma cycle_effects tza toFixed (w : World) :
  exists w' tr,
    generateProfitsForActiveInvestments tza toFixed w = (Returned tt, w', tr)
    /\ investment_plans_table (backend w') = investment_plans_table (backend w)
    /\ map fixed_part (user_investments (backend w'))
       = map fixed_part (user_investments (backend w))
    /\ (forall i, In i (user_investments (backend w)) ->
                  (forall r : InvestmentWithPlan,
                     In r (active_investments (clock w) (backend w)) ->
                     Investment.id r <> Investment.id i) ->
                  In i (user_investments (backend w')))
    /\ exists per, Forall2 credits_of (active_investments (clock w) (backend w)) per
                   /\ filter_map balance_request tr = List.concat per.
Proof.
  set (rows := active_investments (clock w) (backend w)).
  assert (Hnothing : exists per, Forall2 credits_of rows per
             /\ @nil (string * float * BalanceOperation) = List.concat per).
  { exists (map (fun _ => []) rows). destruct (Forall2_no_credits rows) as [H1 H2].
    split; [exact H1 | now rewrite H2]. }
  destruct (strict_equal (lastProfitCheckRef w)
              (date_string_of_day (local_day tza (clock w)))) eqn:Hmark.
  { apply strict_equal_true in Hmark.
    rewrite (cycle_closed tza toFixed w (or_intror Hmark)).
    do 2 eexists. split; [reflexivity |]. repeat split; auto. }
  destruct (in_window tza (clock w)) eqn:Hwin.
  2: { rewrite (cycle_closed tza toFixed w (or_introl Hwin)).
       do 2 eexists. split; [reflexivity |]. repeat split; auto. }
  assert (Href : lastProfitCheckRef w
                 <> Some (date_string_of_day (local_day tza (clock w)))).
  { intros E. rewrite E, strict_equal_same in Hmark. discriminate. }
  rewrite (cycle_run tza toFixed w Hwin Href). cbv zeta. fold rows.
  destruct (failure (reply 0 w)) as [e |].
  { do 2 eexists. split; [reflexivity |]. repeat split; auto. }
  destruct (for_each_investment toFixed rows _) as [[res w'] tr] eqn:Hloop.
  apply for_each_investment_effects in Hloop.
  cbn [backend replied with_lastProfitCheckRef] in Hloop.
  destruct Hloop as (Hplans & Hids & Hkeep & per & Hper & Hcs).
  destruct res as [[] | e]; do 2 eexists; (split; [reflexivity |]);
    (split; [exact Hplans |]); (split; [exact Hids |]); (split; [exact Hkeep |]);
    exists per; (split; [exact Hper |]); cbn [filter_map balance_request]; [exact Hcs |].
  rewrite filter_map_app. cbn. now rewrite app_nil_r.
Qed.

(** X7. A cycle never throws, and whatever the replies are: it inserts and
    deletes no investment, changes nothing of one but [is_active] and
    [profit_earned], and leaves the plans alone; and the
    changes of balances it asks for are, record by record in the order of the
    batch it fetched, none or one credit of the daily profit of that record,
    so never a debit and never two credits for one fetched record. *)
Theorem cycle_credits_each_record_at_most_once tza toFixed (w : World) :
  exists w' tr,
    generateProfitsForActiveInvestments tza toFixed w = (Returned tt, w', tr)
    /\ investment_plans_table (backend w') = investment_plans_table (backend w)
    /\ map fixed_part (user_investments (backend w'))
       = map fixed_part (user_investments (backend w))
    /\ exists per, Forall2 credits_of (active_investments (clock w) (backend w)) per
                   /\ filter_map balance_request tr = List.concat per.
Proof.
  destruct (cycle_effects tza toFixed w) as (w' & tr & Hrun & Hplans & Hids & _ & Hper).
  exists w', tr. repeat split; assumption.
Qed.

(** X8. An investment that is inactive, or whose [end_date] has passed when
    the cycle starts, is not in the batch the cycle fetches: when no other row
    has its id, the row is in the table after the cycle exactly as it was
    before, so a lapsed investment that is still marked active stays so. *)
Theorem cycle_leaves_lapsed_investment tza toFixed (w : World) (i : Investment.t) :
  In i (user_investments (backend w)) ->
  Investment.is_active i = false \/ Investment.end_date i < clock w ->
  (forall j, In j (user_investments (backend w)) ->
             Investment.id j = Investment.id i -> j = i) ->
  exists w' tr,
    generateProfitsForActiveInvestments tza toFixed w = (Returned tt, w', tr)
    /\ In i (user_investments (backend w'))
    /\ ~ In (Investment.id i) (filter_map started tr).
Proof.
  intros Hin Hout Hunique.
  assert (Hnot : forall r : InvestmentWithPlan,
            In r (active_investments (clock w) (backend w)) ->
            Investment.id r <> Investment.id i).
  { intros r Hr E. unfold active_investments in Hr. apply in_map_iff in Hr.
    destruct Hr as (j & <- & Hj). apply filter_In in Hj. destruct Hj as [Hj Hpass].
    cbn [embed_plan investment] in E. apply (Hunique j Hj) in E. subst j.
    apply andb_true_iff in Hpass. destruct Hpass as [Hact Hend].
    apply Z.leb_le in Hend. destruct Hout as [Hout | Hout]; [congruence | lia]. }
  destruct (cycle_effects tza toFixed w) as (w' & tr & Hrun & _ & _ & Hkeep & _).
  exists w', tr. split; [exact Hrun |]. split; [apply Hkeep; assumption |].
  (* the ids started are ids of fetched records *)
  clear Hkeep. revert Hrun.
  destruct (strict_equal (lastProfitCheckRef w)
              (date_string_of_day (local_day tza (clock w)))) eqn:Hmark.
  { apply strict_equal_true in Hmark.
    rewrite (cycle_closed tza toFixed w (or_intror Hmark)).
    intros H; inversion H; subst. intros []. }
  destruct (in_window tza (clock w)) eqn:Hwin.
  2: { rewrite (cycle_closed tza toFixed w (or_introl Hwin)).
       intros H; inversion H; subst. intros []. }
  assert (Href : lastProfitCheckRef w
                 <> Some (date_string_of_day (local_day tza (clock w)))).
  { intros E. rewrite E, strict_equal_same in Hmark. discriminate. }
  rewrite (cycle_run tza toFixed w Hwin Href). cbv zeta.
  destruct (failure (reply 0 w)) as [e |].
  { intros H; inversion H; subst. cbn. intros []. }
  destruct (for_each_investment toFixed _ _) as [[res w2] tr2] eqn:Hloop.
  pose proof (for_each_investment_started _ _ _ _ _ _ Hloop) as Hids. clear Hloop.
  destruct res as [[] | e]; intros H; inversion H; subst; clear H;
    cbn [filter_map started]; rewrite ?filter_map_app; cbn [filter_map started];
    rewrite ?app_nil_r; intros Hstarted; apply Hids in Hstarted;
    apply in_map_iff in Hstarted; destruct Hstarted as (r & E & Hr);
    exact (Hnot r Hr E).
Qed.

Lemma for_each_investment_stops toFixed (before after : list InvestmentWithPlan)
  (r : InvestmentWithPlan) :
  Forall (fun r0 => investment_plans r0 <> None) before ->
  investment_plans r = None ->
  forall w : World,
  exists w' tr,
    for_each_investment toFixed (before ++ r :: after) w
    = (Thrown (TypeError "Cannot read properties of null"), w', tr)
    /\ filter_map started tr = map (fun r0 : InvestmentWithPlan => Investment.id r0) before.
Proof.
  intros Hbefore Hr. induction Hbefore as [| row before Hrow _ IH]; intros w;
    cbn [app for_each_investment].
  - rewrite Hr. cbn [property_of]. unfold bind, throw.
    exists w, []. split; reflexivity.
  - destruct (investment_plans row) as [plan |]; [| contradiction]. cbn [property_of].
    unfold bind at 1. unfold ret at 1. unfold bind at 1.
    destruct (generateDailyProfit_returns toFixed (Investment.id row)
                (Number (Investment.amount row))
                (Number (Plan.daily_profit_percentage plan)) w) as (w1 & tr1 & Hrun & Hid & _).
    rewrite Hrun. destruct (IH w1) as (w2 & tr2 & Hrest & Hids). rewrite Hrest.
    exists w2, ([] ++ tr1 ++ tr2)%list. split; [reflexivity |].
    cbn [app map]. now rewrite filter_map_app, Hid, Hids.
Qed.

(** X9. When a fetched record has no plan embedded, reading the rate of its
    plan throws in the loop, outside of [generateDailyProfit]: the records
    before it have been started, neither it nor any record after it is, and
    the cycle ends by logging the [TypeError] as an error of the batch. *)
Theorem cycle_stops_at_record_without_plan tza toFixed (w : World)
  (before after : list InvestmentWithPlan) (r : InvestmentWithPlan) :
  in_window tza (clock w) = true ->
  lastProfitCheckRef w <> Some (date_string_of_day (local_day tza (clock w))) ->
  failure (reply 0 w) = None ->
  active_investments (clock w) (backend w) = (before ++ r :: after)%list ->
  Forall (fun r0 => investment_plans r0 <> None) before ->
  investment_plans r = None ->
  exists w' processing tr,
    generateProfitsForActiveInvestments tza toFixed w
    = (Returned tt, w',
       Remote (SelectActiveInvestments (clock w)) :: ConsoleLog processing
       :: (tr ++ [ConsoleError "Error generating profits:"
                    (TypeError "Cannot read properties of null")])%list)
    /\ filter_map started tr = map (fun r0 : InvestmentWithPlan => Investment.id r0) before.
Proof.
  intros Hwin Href H0 Hrows Hbefore Hr.
  rewrite (cycle_run tza toFixed w Hwin Href). cbv zeta. rewrite H0, Hrows.
  destruct (for_each_investment_stops toFixed before after r Hbefore Hr
              (replied (with_lastProfitCheckRef
                 (Some (date_string_of_day (local_day tza (clock w)))) w)))
    as (w' & tr & Hloop & Hids).
  rewrite Hloop. exists w'. do 2 eexists. split; [reflexivity | exact Hids].
Qed.

Lemma getMinutes_after_hours (tza : JSDate.Zone) (t : Z) (k h : Z) :
  JSDate.offset_at tza (t + k * interval) = JSDate.offset_at tza t + h * JSDate.msPerHour ->
  JSDate.getMinutes tza (t + k * interval) = JSDate.getMinutes tza t.
Proof.
  unfold JSDate.getMinutes, JSDate.MinFromTime, JSDate.LocalTime. intros ->.
  unfold JSDate.msPerMinute, JSDate.msPerHour, interval.
  replace (t + k * (60 * 60 * 1000) + (JSDate.offset_at tza t + h * 3600000))
    with (t + JSDate.offset_at tza t + ((k + h) * 60) * 60000) by lia.
  rewrite Z.div_add by lia.
  rewrite Z.add_mod by lia. rewrite Z.mod_mul by lia.
  rewrite Z.add_0_r. apply Z.mod_mod. lia.
Qed.

Lemma late_minutes_outside_window (tza : JSDate.Zone) (t : Z) :
  5 <= JSDate.getMinutes tza t -> in_window tza t = false.
Proof.
  intros H. rewrite <- hours_minutes_window. apply andb_false_iff. right.
  apply Z.ltb_ge. exact H.
Qed.

(** Checks whose gates all stay shut do nothing. *)
Lemma calls_closed tza toFixed (times : list Z) :
  Forall (fun t => in_window tza t = false) times ->
  forall w : World,
  exists t_last,
    calls (generateProfitsForActiveInvestments tza toFixed) times w
    = (Returned (map (fun _ => tt) times), with_clock t_last w, []).
Proof.
  induction 1 as [| t rest Ht _ IH]; intros w.
  - exists (clock w). destruct w; reflexivity.
  - cbn [calls map]. unfold bind at 1.
    rewrite (cycle_closed_at tza toFixed t w (or_introl Ht)).
    destruct (IH (with_clock t w)) as (t_last & Hrest).
    unfold bind. rewrite Hrest. exists t_last. reflexivity.
Qed.

(** X10. A hook mounted at a local time with five or more minutes past the
    hour never gets through its gate, as long as the checks of the hourly
    interval are taken at their nominal times and the zone's offset changes
    by whole hours only while the page is open: the check at mount and every
    later check asks nothing of the backend, so no profit is generated.  (In
    a zone whose clocks move by half an hour the minutes past the hour
    change with the offset, and the statement says nothing.) *)
Theorem mount_off_the_hour_never_generates tza toFixed (mounted : Z) (ticks : nat)
  (w : World) :
  5 <= JSDate.getMinutes tza mounted ->
  whole_hour_changes tza mounted ticks ->
  exists w',
    mount tza toFixed mounted ticks w
    = (Returned (map (fun _ => tt) (check_times mounted ticks)), w', [])
    /\ backend w' = backend w
    /\ sent w' = sent w
    /\ lastProfitCheckRef w' = None.
Proof.
  intros Hlate Hzone. unfold mount.
  assert (Hshut : Forall (fun t => in_window tza t = false) (check_times mounted ticks)).
  { unfold check_times. apply Forall_forall. intros t Ht. apply in_map_iff in Ht.
    destruct Ht as (k & <- & Hk). apply in_seq in Hk.
    destruct (Hzone k) as (h & Hoffset); [lia |].
    apply late_minutes_outside_window.
    now rewrite (getMinutes_after_hours tza mounted (Z.of_nat k) h Hoffset). }
  destruct (calls_closed tza toFixed _ Hshut (with_lastProfitCheckRef None w))
    as (t_last & Hrun).
  rewrite Hrun. eexists. split; [reflexivity |]. repeat split.
Qed.

(** X11. The marker lives in the mounted hook only: a hook mounted inside the
    window runs a cycle whatever marker an earlier hook of the same page had
    reached, so after a reload or a second mount within the five minutes the
    batch is fetched a second time on the same day. *)
Theorem mount_inside_window_runs_cycle tza toFixed (mounted : Z) (w : World) :
  in_window tza mounted = true ->
  exists w' tr,
    mount tza toFixed mounted 0 w
    = (Returned [tt], w', Remote (SelectActiveInvestments mounted) :: tr)
    /\ lastProfitCheckRef w'
       = Some (date_string_of_day (local_day tza mounted)).
Proof.
  intros Hwin. unfold mount, check_times. cbn [seq map calls].
  replace (mounted + Z.of_nat 0 * interval) with mounted by (cbn; lia).
  unfold bind at 1. unfold at_time.
  set (w0 := with_clock mounted (with_lastProfitCheckRef None w)).
  assert (Hwin0 : in_window tza (clock w0) = true) by exact Hwin.
  assert (Href0 : lastProfitCheckRef w0
                  <> Some (date_string_of_day (local_day tza (clock w0))))
    by discriminate.
  destruct (cycle_marker tza toFixed w0 Hwin0 Href0) as (w' & tr & Hrun & Hmark).
  pose proof (cycle_run tza toFixed w0 Hwin0 Href0) as Hform. cbv zeta in Hform.
  rewrite Hrun in Hform. rewrite Hrun. unfold bind, ret.
  destruct (failure (reply 0 w0)).
  - inversion Hform; subst. do 2 eexists. split; [reflexivity | exact Hmark].
  - destruct (for_each_investment toFixed _ _) as [[[[] | e] w2] tr2];
      inversion Hform; subst; do 2 eexists; (split; [reflexivity | exact Hmark]).
Qed.

(** The settings the component holds once its query has settled. *)
Lemma settled_settings (w : World) (loaded present : bool) :
  recaptchaSettings (settled w loaded present)
  = Some match failure (reply 0 w), recaptcha_settings (backend w) with
         | None, [data] =>
             if Recaptcha.is_enabled data
             then {| enabled := true; siteKey := Some (Recaptcha.site_key data) |}
             else {| enabled := false; siteKey := None |}
         | _, _ => {| enabled := false; siteKey := None |}
         end
  /\ isLoaded (settled w loaded present) = loaded
  /\ grecaptcha (settled w loaded present) = present.
Proof.
  unfold settled, useQuery, try_catch, bind. rewrite queryFn_run.
  destruct (failure (reply 0 w)); [repeat split |].
  destruct (recaptcha_settings (backend w)) as [| data [| data' rows]]; [repeat split | | repeat split].
  destruct (Recaptcha.is_enabled data); repeat split.
Qed.

(** X12. The component returns its container exactly when the read of the
    settings went through and found one single row, and that row is enabled;
    in every other case, also with two enabled rows, it returns [null]. *)
Theorem RecaptchaWrapper_shown_iff (w : World) (loaded present : bool) :
  (RecaptchaWrapper (settled w loaded present) = Some recaptcha_container
   <-> failure (reply 0 w) = None
       /\ exists data, recaptcha_settings (backend w) = [data]
                       /\ Recaptcha.is_enabled data = true)
  /\ (RecaptchaWrapper (settled w loaded present) = Some recaptcha_container
      \/ RecaptchaWrapper (settled w loaded present) = None).
Proof.
  destruct (settled_settings w loaded present) as (Hs & _ & _).
  unfold RecaptchaWrapper, settings_enabled. rewrite Hs.
  destruct (failure (reply 0 w)) as [e |].
  { cbn. split; [| now right]. split; [discriminate | intros [H _]; discriminate]. }
  destruct (recaptcha_settings (backend w)) as [| data [| data' rows]].
  - cbn. split; [| now right].
    split; [discriminate | intros (_ & d & H & _); discriminate].
  - destruct (Recaptcha.is_enabled data) eqn:E; cbn.
    + split; [| now left]. split; [intros _; split; [reflexivity | now exists data] | reflexivity].
    + split; [| now right]. split; [discriminate |].
      intros (_ & d & H & Hd). inversion H; subst. congruence.
  - cbn. split; [| now right].
    split; [discriminate | intros (_ & d & H & _); discriminate].
Qed.

(** X13. With the one row enabled and its site key not empty: the script is
    appended only when [window.grecaptcha] does not exist yet, and the widget
    is rendered, into [recaptcha-container] and with the site key of the row,
    exactly when the script is loaded and [window.grecaptcha] exists. *)
Theorem RecaptchaWrapper_renders_with_site_key (w : World) (data : Recaptcha.t) :
  failure (reply 0 w) = None ->
  recaptcha_settings (backend w) = [data] ->
  Recaptcha.is_enabled data = true ->
  Recaptcha.site_key data <> EmptyString ->
  (forall loaded present,
     load_effect (settled w loaded present)
     = if present then [] else [AppendScript "https://www.google.com/recaptcha/api.js"])
  /\ (forall loaded present,
        render_effect (settled w loaded present)
        = if loaded && present
          then [RenderWidget "recaptcha-container" (Recaptcha.site_key data)]
          else []).
Proof.
  intros H0 Hrow Hon Hkey.
  assert (Htruthy : negb (Recaptcha.site_key data =? EmptyString)%string = true).
  { apply negb_true_iff. now apply String.eqb_neq. }
  split; intros loaded present;
    destruct (settled_settings w loaded present) as (Hs & Hl & Hp);
    rewrite H0, Hrow, Hon in Hs.
  - unfold load_effect. rewrite Hs, Hp. cbn. rewrite Htruthy. reflexivity.
  - unfold render_effect. rewrite Hs, Hl, Hp. cbn. rewrite Htruthy.
    destruct loaded, present; reflexivity.
Qed.

(** X14. With the one row enabled and its site key empty, the component shows
    its container, but neither effect ever does anything: no script is loaded
    and no widget is rendered into the container. *)
Theorem RecaptchaWrapper_enabled_without_key (w : World) (data : Recaptcha.t)
  (loaded present : bool) :
  failure (reply 0 w) = None ->
  recaptcha_settings (backend w) = [data] ->
  Recaptcha.is_enabled data = true ->
  Recaptcha.site_key data = EmptyString ->
  RecaptchaWrapper (settled w loaded present) = Some recaptcha_container
  /\ load_effect (settled w loaded present) = []
  /\ render_effect (settled w loaded present) = [].
Proof.
  intros H0 Hrow Hon Hkey.
  destruct (settled_settings w loaded present) as (Hs & Hl & Hp).
  rewrite H0, Hrow, Hon, Hkey in Hs.
  unfold RecaptchaWrapper, load_effect, render_effect. rewrite Hs. cbn.
  rewrite !andb_false_r. repeat split.
Qed.

(** What a returning call of [activatePlan] has done. *)
Lemma activatePlan_returned tza gen_id later planId amount userId
  (w w' : World) (inv : Investment.t) (tr : list Event) :
  activatePlan tza gen_id later planId amount userId w = (Returned inv, w', tr) ->
  exists plan end_date,
    filter (fun p => (Plan.id p =? planId)%string) (investment_plans_table (backend w))
    = [plan]
    /\ inv = stored gen_id (backend w)
               (new_investment (clock (replied w)) end_date planId amount userId)
    /\ backend w'
       = snd (serve_update_user_balance userId amount remove
                (snd (serve_insert_investment gen_id
                        (new_investment (clock (replied w)) end_date planId amount userId)
                        (backend w))))
    /\ sent w' = (3 + sent w)%nat.
Proof.
  rewrite activatePlan_run.
  destruct (failure (network w (sent w))); [discriminate |].
  destruct (fst (serve_select_plan planId (backend w))) as [e | plan] eqn:Hplan;
    [discriminate |].
  cbv zeta.
  destruct (end_date_of tza plan _) as [end_date |]; [| discriminate].
  destruct (failure (network w (S (sent w)))); [discriminate |].
  destruct (failure (network w (S (S (sent w))))); [discriminate |].
  intros H. inversion H; subst; clear H.
  unfold serve_select_plan in Hplan. cbn [fst] in Hplan. apply single_Data in Hplan.
  exists plan, end_date. repeat split. exact Hplan.
Qed.

(** X15. A call of [activatePlan] that returns has made exactly three remote
    calls; afterwards the table holds the returned row as its new last row,
    with the id the database gave it and the user, plan and amount passed in,
    the balance of the user is the old one minus the amount, and the other
    balances, the plans and the notifications are as before. *)
Theorem activatePlan_books tza gen_id later planId amount userId
  (w w' : World) (inv : Investment.t) (tr : list Event) :
  activatePlan tza gen_id later planId amount userId w = (Returned inv, w', tr) ->
  user_investments (backend w') = (user_investments (backend w) ++ [inv])%list
  /\ Investment.id inv = gen_id (user_investments (backend w))
  /\ Investment.user_id inv = userId
  /\ Investment.plan_id inv = planId
  /\ Investment.amount inv = amount
  /\ balances (backend w') userId = (balances (backend w) userId - amount)%float
  /\ (forall other, other <> userId ->
        balances (backend w') other = balances (backend w) other)
  /\ investment_plans_table (backend w') = investment_plans_table (backend w)
  /\ notifications (backend w') = notifications (backend w)
  /\ sent w' = (3 + sent w)%nat.
Proof.
  intros H. apply activatePlan_returned in H.
  destruct H as (plan & end_date & _ & -> & -> & Hsent).
  cbn [serve_update_user_balance serve_insert_investment
       snd user_investments balances investment_plans_table notifications
       stored new_investment Investment.id Investment.user_id Investment.plan_id
       Investment.amount NewInvestment.user_id NewInvestment.plan_id NewInvestment.amount].
  rewrite String.eqb_refl. repeat split; [| exact Hsent].
  intros other Hother. destruct (String.eqb_spec other userId); [contradiction | reflexivity].
Qed.

(** X16. When the read of the plan fails, when no plan or more than one plan
    has the id, or when the insert fails, [activatePlan] throws with the
    backend exactly as it was and without having asked for any change of a
    balance. *)
Theorem activatePlan_writes_nothing_before_insert tza gen_id later planId amount userId
  (w : World) :
  (exists e, failure (reply 0 w) = Some e)
  \/ List.length (filter (fun p => (Plan.id p =? planId)%string)
                    (investment_plans_table (backend w))) <> 1%nat
  \/ (exists e, failure (reply 1 w) = Some e) ->
  exists e w' tr,
    activatePlan tza gen_id later planId amount userId w = (Thrown e, w', tr)
    /\ backend w' = backend w
    /\ filter_map balance_request tr = [].
Proof.
  intros H. rewrite activatePlan_run.
  change (network w (sent w)) with (reply 0 w).
  change (network w (S (sent w))) with (reply 1 w).
  destruct (failure (reply 0 w)) as [e0 |].
  { do 3 eexists. split; [reflexivity |]. split; reflexivity. }
  destruct (fst (serve_select_plan planId (backend w))) as [e1 | plan] eqn:Hplan.
  { do 3 eexists. split; [reflexivity |]. split; reflexivity. }
  cbv zeta. destruct (end_date_of tza plan _) as [end_date |].
  2: { do 3 eexists. split; [reflexivity |]. split; reflexivity. }
  destruct H as [(e & He) | [Hrows | (e & He)]]; [discriminate | |].
  - exfalso. apply Hrows. unfold serve_select_plan in Hplan. cbn [fst] in Hplan.
    now rewrite (single_Data _ _ Hplan).
  - rewrite He. do 3 eexists. split; [reflexivity |]. split; reflexivity.
Qed.

Lemma filter_none {A} (f : A -> bool) (l : list A) :
  (forall a, In a l -> f a = false) -> filter f l = [].
Proof.
  induction l as [| a l IH]; cbn; intros H; [reflexivity |].
  rewrite (H a (or_introl eq_refl)). apply IH. intros b Hb. apply H. now right.
Qed.

(** X17. Insert and look up: when the id the database gives to the new row is
    the id of no row already there, the investment returned by [activatePlan]
    is the one a read by its id finds afterwards, with the plan it was
    activated for embedded. *)
Theorem activatePlan_then_select tza gen_id later planId amount userId
  (w w' : World) (inv : Investment.t) (tr : list Event) :
  activatePlan tza gen_id later planId amount userId w = (Returned inv, w', tr) ->
  (forall i, In i (user_investments (backend w)) ->
             Investment.id i <> gen_id (user_investments (backend w))) ->
  lookup_investment (Investment.id inv) (backend w') = Some inv
  /\ exists plan,
       fst (serve_select_investment (Investment.id inv) (backend w'))
       = Data {| investment := inv; investment_plans := Some plan |}
       /\ Plan.id plan = planId.
Proof.
  intros H Hfresh. apply activatePlan_returned in H.
  destruct H as (plan & end_date & Hplan & Hinv & Hb & _).
  assert (Hid : Investment.id inv = gen_id (user_investments (backend w)))
    by (rewrite Hinv; reflexivity).
  assert (Hpid : Investment.plan_id inv = planId) by (rewrite Hinv; reflexivity).
  assert (Hrows : user_investments (backend w')
                  = (user_investments (backend w) ++ [inv])%list)
    by (rewrite Hb, Hinv; reflexivity).
  assert (Hplans : investment_plans_table (backend w')
                   = investment_plans_table (backend w))
    by (rewrite Hb; reflexivity).
  assert (Hone : filter (has_id (Investment.id inv)) (user_investments (backend w'))
                 = [inv]).
  { rewrite Hrows, filter_app, filter_none.
    - cbn. unfold has_id. now rewrite String.eqb_refl.
    - intros i Hi. unfold has_id. apply String.eqb_neq. rewrite Hid. exact (Hfresh i Hi). }
  split; [now apply find_of_filter |].
  exists plan. split.
  - unfold serve_select_investment. cbn [fst]. fold (has_id (Investment.id inv)).
    rewrite Hone. cbn [map single]. unfold embed_plan. rewrite Hplans, Hpid.
    now rewrite (find_of_filter _ _ _ Hplan).
  - assert (Hin : In plan (filter (fun p => (Plan.id p =? planId)%string)
                             (investment_plans_table (backend w))))
      by (rewrite Hplan; now left).
    apply filter_In in Hin. now apply String.eqb_eq.
Qed.

Lemma reply_replied (n : nat) (w : World) : reply n (replied w) = reply (S n) w.
Proof. unfold reply. cbn [replied network sent]. now rewrite Nat.add_succ_r. Qed.

Lemma clock_after_replied (n : nat) (w : World) :
  clock_after n (replied w) = clock_after (S n) w.
Proof.
  induction n as [| n IH]; [reflexivity |].
  cbn [clock_after] in *. now rewrite IH, reply_replied.
Qed.

Lemma clock_after_with_backend (n : nat) (b : Backend) (w : World) :
  clock_after n (with_backend b w) = clock_after n w.
Proof. induction n as [| n IH]; [reflexivity |]. cbn [clock_after]. now rewrite IH. Qed.

Lemma calm_replied (k : nat) (deadline : Z) (w : World) :
  calm (S k) deadline w -> calm k deadline (replied w).
Proof.
  intros H n Hn. rewrite reply_replied, clock_after_replied. apply (H (S n)). lia.
Qed.

Lemma calm_with_backend (k : nat) (deadline : Z) (b : Backend) (w : World) :
  calm k deadline w -> calm k deadline (with_backend b w).
Proof.
  intros H n Hn. rewrite clock_after_with_backend. apply (H n Hn).
Qed.

Lemma filter_unique_id (rows : list Investment.t) (i : Investment.t) :
  NoDup (map Investment.id rows) -> In i rows ->
  filter (has_id (Investment.id i)) rows = [i].
Proof.
  induction rows as [| j rows IH]; intros Hnd Hin; [contradiction |].
  cbn [map] in Hnd. inversion Hnd as [| ? ? Hfresh Hrest]; subst.
  cbn [filter]. unfold has_id at 1.
  destruct Hin as [-> | Hin].
  - rewrite String.eqb_refl. f_equal. apply filter_none. intros k Hk.
    unfold has_id. apply String.eqb_neq. intros E. apply Hfresh. rewrite <- E.
    now apply in_map.
  - destruct (String.eqb_spec (Investment.id j) (Investment.id i)) as [E | _].
    + exfalso. apply Hfresh. rewrite E. now apply in_map.
    + now apply IH.
Qed.

Lemma embed_plan_same_plans (b b' : Backend) (i : Investment.t) :
  investment_plans_table b' = investment_plans_table b -> embed_plan b' i = embed_plan b i.
Proof. intros H. unfold embed_plan. now rewrite H. Qed.

Lemma updated_self investmentId (u : InvestmentUpdate) (rows : list Investment.t)
  (i : Investment.t) :
  Investment.id i = investmentId -> In i rows ->
  In (apply_update u i) (updated investmentId u rows).
Proof.
  intros Hid Hin. unfold updated. apply in_map_iff. exists i. split; [| exact Hin].
  rewrite Hid, String.eqb_refl. reflexivity.
Qed.

(** One record on a calm network: fetched again, credited, notified. *)
Lemma generateDailyProfit_calm toFixed (k : nat) (deadline : Z) (w : World)
  (r : InvestmentWithPlan) (plan : Plan.t) :
  calm (4 + k) deadline w ->
  deadline <= Investment.end_date r ->
  investment_plans r = Some plan ->
  NoDup (map Investment.id (user_investments (backend w))) ->
  In (investment r) (user_investments (backend w)) ->
  embed_plan (backend w) r = r ->
  exists w' tr,
    generateDailyProfit toFixed (Investment.id r) (Number (Investment.amount r))
      (Number (Plan.daily_profit_percentage plan)) w = (Returned tt, w', tr)
    /\ calm k deadline w'
    /\ filter_map balance_request tr = [(Investment.user_id r, profit_of r, add)]
    /\ investment_plans_table (backend w') = investment_plans_table (backend w)
    /\ user_investments (backend w')
       = updated (Investment.id r)
           (SetProfitEarned (Investment.profit_earned r + profit_of r)%float)
           (user_investments (backend w))
    /\ (forall u, balances (backend w') u
                  = if (u =? Investment.user_id r)%string
                    then (balances (backend w) u + profit_of r)%float
                    else balances (backend w) u).
Proof.
  intros Hcalm Hend Hplan Hnd Hin Hembed.
  assert (Hrow : fst (serve_select_investment (Investment.id r) (backend w)) = Data r).
  { unfold serve_select_investment. cbn [fst]. fold (has_id (Investment.id r)).
    rewrite (filter_unique_id _ _ Hnd Hin). cbn [map single]. now rewrite Hembed. }
  assert (Hlive : (Investment.end_date r <? clock (replied w)) = false).
  { apply Z.ltb_ge. destruct (Hcalm 0%nat ltac:(lia)) as [_ H1]. cbn [clock_after] in H1.
    cbn [replied clock]. unfold reply in H1. cbn [Nat.add] in H1. lia. }
  rewrite generateDailyProfit_run. cbv zeta.
  rewrite (proj1 (Hcalm 0%nat ltac:(lia))), Hrow, Hlive, (proj1 (Hcalm 1%nat ltac:(lia))),
    (proj1 (Hcalm 2%nat ltac:(lia))), Hplan, (proj1 (Hcalm 3%nat ltac:(lia))).
  do 2 eexists. split; [reflexivity |].
  split; [apply calm_with_backend; do 4 apply calm_replied; exact Hcalm |].
  unfold profit_of. rewrite Hplan.
  cbn [backend with_backend replied serve_update_investment serve_update_user_balance
       serve_send_user_notification snd investment_plans_table user_investments balances
       filter_map balance_request].
  repeat split.
Qed.

(** The loop on a calm network credits every record once. *)
Lemma for_each_investment_calm toFixed (deadline : Z) (rows : list InvestmentWithPlan) :
  forall w : World,
  calm (List.length rows * 4) deadline w ->
  NoDup (map Investment.id (user_investments (backend w))) ->
  NoDup (map (fun r : InvestmentWithPlan => Investment.id r) rows) ->
  (forall r, In r rows ->
     deadline <= Investment.end_date r
     /\ investment_plans r <> None
     /\ In (investment r) (user_investments (backend w))
     /\ embed_plan (backend w) r = r) ->
  exists w' tr,
    for_each_investment toFixed rows w = (Returned tt, w', tr)
    /\ filter_map balance_request tr
       = map (fun r : InvestmentWithPlan => (Investment.user_id r, profit_of r, add)) rows
    /\ map fixed_part (user_investments (backend w'))
       = map fixed_part (user_investments (backend w))
    /\ (forall r, In r rows -> In (credited r) (user_investments (backend w')))
    /\ (forall u, balances (backend w') u
                  = fold_left (fun bal (r : InvestmentWithPlan) =>
                                 if (u =? Investment.user_id r)%string
                                 then (bal + profit_of r)%float else bal)
                      rows (balances (backend w) u)).
Proof.
  induction rows as [| r rows IH]; intros w Hcalm Hnd Hids Hrows; cbn [for_each_investment].
  - exists w, []. repeat split; auto. intros r [].
  - destruct (Hrows r (or_introl eq_refl)) as (Hend & Hplan & Hin & Hembed).
    destruct (investment_plans r) as [plan |] eqn:Eplan; [| contradiction].
    cbn [property_of]. unfold bind at 1. unfold ret at 1. unfold bind at 1.
    destruct (generateDailyProfit_calm toFixed (List.length rows * 4) deadline w r plan
                Hcalm Hend Eplan Hnd Hin Hembed)
      as (w1 & tr1 & Hrun & Hcalm1 & Hcredit & Hplans1 & Hrows1 & Hbal1).
    rewrite Hrun.
    cbn [map] in Hids. inversion Hids as [| ? ? Hfresh Hids']; subst.
    assert (Hnd1 : NoDup (map Investment.id (user_investments (backend w1)))).
    { rewrite Hrows1. rewrite (fixed_part_ids _ _ (updated_fixed_part _ _ _)). exact Hnd. }
    assert (Hrest : forall r', In r' rows ->
              deadline <= Investment.end_date r'
              /\ investment_plans r' <> None
              /\ In (investment r') (user_investments (backend w1))
              /\ embed_plan (backend w1) r' = r').
    { intros r' Hr'. destruct (Hrows r' (or_intror Hr')) as (He & Hp & Hi & Hem).
      split; [exact He |]. split; [exact Hp |]. split.
      - rewrite Hrows1. apply updated_keeps_other; [| exact Hi].
        unfold has_id. apply String.eqb_neq. intros E. apply Hfresh. rewrite <- E.
        now apply (in_map (fun r0 : InvestmentWithPlan => Investment.id r0)).
      - now rewrite (embed_plan_same_plans _ _ _ Hplans1). }
    destruct (IH w1 Hcalm1 Hnd1 Hids' Hrest)
      as (w2 & tr2 & Hloop & Hcredits & Hfixed & Hall & Hbal).
    rewrite Hloop. exists w2, ([] ++ tr1 ++ tr2)%list. split; [reflexivity |].
    split; [| split; [| split]].
    + cbn [app map]. now rewrite filter_map_app, Hcredit, Hcredits.
    + rewrite Hfixed, Hrows1. apply updated_fixed_part.
    + intros r' [<- | Hr']; [| now apply Hall].
      pose proof (for_each_investment_effects toFixed rows w1 w2 _ _ Hloop)
        as (_ & _ & Hkeep & _).
      apply Hkeep.
      * rewrite Hrows1. now apply updated_self.
      * intros r' Hr' E. apply Hfresh. cbn [credited apply_update Investment.id] in E.
        rewrite <- E. now apply (in_map (fun r0 : InvestmentWithPlan => Investment.id r0)).
    + intros u. cbn [fold_left]. rewrite Hbal, Hbal1. reflexivity.
Qed.

Lemma calm_with_lastProfitCheckRef (k : nat) (deadline : Z) (ref : option string)
  (w : World) :
  calm k deadline w -> calm k deadline (with_lastProfitCheckRef ref w).
Proof.
  intros H n Hn.
  assert (E : forall m, clock_after m (with_lastProfitCheckRef ref w) = clock_after m w).
  { induction m as [| m IH]; [reflexivity |]. cbn [clock_after]. now rewrite IH. }
  rewrite E. apply (H n Hn).
Qed.

Lemma NoDup_ids_filter (f : Investment.t -> bool) (rows : list Investment.t) :
  NoDup (map Investment.id rows) -> NoDup (map Investment.id (filter f rows)).
Proof.
  induction rows as [| i rows IH]; cbn [map filter]; intros H; [constructor |].
  inversion H as [| ? ? Hfresh Hrest]; subst.
  destruct (f i); [| now apply IH].
  cbn [map]. constructor; [| now apply IH].
  intros Hin. apply Hfresh. apply in_map_iff in Hin. destruct Hin as (j & E & Hj).
  apply filter_In in Hj. rewrite <- E. now apply in_map.
Qed.

(** X18. A cycle in which nothing fails: when the gate opens, the fetch of
    the batch and the four calls for each fetched record go through and are
    answered by the [end_date] of every fetched record, the ids of the table
    are distinct and every investment has its plan, the cycle credits every fetched record once and in the order of the
    batch: one credit of [amount * rate / 100] to the owner of each record;
    afterwards each fetched row holds its [profit_earned] plus that profit,
    and the balance of every user has grown by the profits of his records. *)
Theorem cycle_credits_every_record tza toFixed (deadline : Z) (w : World) :
  let rows := active_investments (clock w) (backend w) in
  in_window tza (clock w) = true ->
  lastProfitCheckRef w <> Some (date_string_of_day (local_day tza (clock w))) ->
  calm (1 + List.length rows * 4) deadline w ->
  NoDup (map Investment.id (user_investments (backend w))) ->
  plans_resolve (backend w) ->
  (forall r, In r rows -> deadline <= Investment.end_date r) ->
  exists w' tr,
    generateProfitsForActiveInvestments tza toFixed w = (Returned tt, w', tr)
    /\ filter_map balance_request tr
       = map (fun r : InvestmentWithPlan => (Investment.user_id r, profit_of r, add)) rows
    /\ (forall r, In r rows ->
          lookup_investment (Investment.id r) (backend w') = Some (credited r))
    /\ (forall u, balances (backend w') u
                  = fold_left (fun bal (r : InvestmentWithPlan) =>
                                 if (u =? Investment.user_id r)%string
                                 then (bal + profit_of r)%float else bal)
                      rows (balances (backend w) u)).
Proof.
  intros rows Hwin Href Hcalm Hnd Hfk Hend.
  rewrite (cycle_run tza toFixed w Hwin Href). cbv zeta. fold rows.
  rewrite (proj1 (Hcalm 0%nat ltac:(lia))).
  set (w0 := replied (with_lastProfitCheckRef
                        (Some (date_string_of_day (local_day tza (clock w)))) w)).
  assert (Hcalm0 : calm (List.length rows * 4) deadline w0)
    by (apply calm_replied, calm_with_lastProfitCheckRef, Hcalm).
  assert (Hids : NoDup (map (fun r : InvestmentWithPlan => Investment.id r) rows)).
  { unfold rows, active_investments. rewrite map_map. cbn [embed_plan investment].
    now apply NoDup_ids_filter. }
  assert (Hrows : forall r, In r rows ->
            deadline <= Investment.end_date r
            /\ investment_plans r <> None
            /\ In (investment r) (user_investments (backend w0))
            /\ embed_plan (backend w0) r = r).
  { intros r Hr. split; [now apply Hend |].
    unfold rows, active_investments in Hr. apply in_map_iff in Hr.
    destruct Hr as (j & <- & Hj). apply filter_In in Hj. destruct Hj as [Hj _].
    split; [now apply Hfk |]. split; [exact Hj | reflexivity]. }
  destruct (for_each_investment_calm toFixed deadline rows w0 Hcalm0 Hnd Hids Hrows)
    as (w' & tr & Hloop & Hcredits & Hfixed & Hall & Hbal).
  rewrite Hloop. do 2 eexists. split; [reflexivity |].
  split; [exact Hcredits |]. split; [| exact Hbal].
  intros r Hr. unfold lookup_investment.
  change (Investment.id r) with (Investment.id (credited r)).
  apply find_of_filter, filter_unique_id; [| now apply Hall].
  rewrite (fixed_part_ids _ _ Hfixed). exact Hnd.
Qed.

(** What [activatePlan] can have left behind, however it ends: the backend
    as it was, or one new last row in a plan it read, with or without the
    debit. *)
Lemma activatePlan_backend tza gen_id later planId amount userId
  (w w' : World) (res : Result Investment.t) (tr : list Event) :
  activatePlan tza gen_id later planId amount userId w = (res, w', tr) ->
  backend w' = backend w
  \/ (investment_plans_table (backend w') = investment_plans_table (backend w)
      /\ exists row,
           user_investments (backend w')
           = (user_investments (backend w) ++ [stored gen_id (backend w) row])%list).
Proof.
  rewrite activatePlan_run.
  destruct (failure (network w (sent w))); [intros H; inversion H; now left |].
  destruct (fst (serve_select_plan planId (backend w))) as [e | plan];
    [intros H; inversion H; now left |].
  cbv zeta.
  destruct (end_date_of tza plan _) as [end_date |]; [| intros H; inversion H; now left].
  destruct (failure (network w (S (sent w)))); [intros H; inversion H; now left |].
  destruct (failure (network w (S (S (sent w)))));
    intros H; injection H as _ <- _; right; (split; [reflexivity |]);
    eexists; reflexivity.
Qed.

Lemma plans_resolve_frame (b b' : Backend) :
  investment_plans_table b' = investment_plans_table b ->
  map fixed_part (user_investments b') = map fixed_part (user_investments b) ->
  plans_resolve b -> plans_resolve b'.
Proof.
  intros Hplans Hfixed Hfk i' Hi'.
  apply (in_map fixed_part) in Hi'. rewrite Hfixed in Hi'.
  apply in_map_iff in Hi'. destruct Hi' as (i & E & Hi).
  specialize (Hfk i Hi). unfold embed_plan in *. cbn [investment_plans] in *.
  rewrite Hplans.
  replace (Investment.plan_id i') with (Investment.plan_id i); [exact Hfk |].
  unfold fixed_part in E. now inversion E.
Qed.

(** X19. The two operations of the hook keep the table well formed: when every
    investment refers to a plan and the ids of the investments are distinct,
    this is still so after [activatePlan], however it ends and provided the
    database gives the new row an id that is not taken, and after a cycle,
    whatever the replies. *)
Theorem hook_keeps_table_well_formed tza gen_id later toFixed (w : World) :
  plans_resolve (backend w) ->
  NoDup (map Investment.id (user_investments (backend w))) ->
  (forall planId amount userId res w' tr,
     (forall i, In i (user_investments (backend w)) ->
                Investment.id i <> gen_id (user_investments (backend w))) ->
     activatePlan tza gen_id later planId amount userId w = (res, w', tr) ->
     plans_resolve (backend w')
     /\ NoDup (map Investment.id (user_investments (backend w'))))
  /\ (forall res w' tr,
        generateProfitsForActiveInvestments tza toFixed w = (res, w', tr) ->
        plans_resolve (backend w')
        /\ NoDup (map Investment.id (user_investments (backend w')))).
Proof.
  intros Hfk Hnd. split.
  - intros planId amount userId res w' tr Hfresh Hrun.
    split; [exact (activatePlan_keeps_plans_resolve _ _ _ _ _ _ _ _ _ _ Hrun Hfk) |].
    apply activatePlan_backend in Hrun. destruct Hrun as [-> | (_ & row & ->)]; [exact Hnd |].
    rewrite map_app. cbn [map stored Investment.id].
    apply NoDup_app; [exact Hnd | constructor; [intros [] | constructor] |].
    intros a Ha [<- | []]. apply in_map_iff in Ha. destruct Ha as (i & E & Hi).
    exact (Hfresh i Hi E).
  - intros res w' tr Hrun.
    destruct (cycle_effects tza toFixed w) as (w1 & tr1 & Hrun1 & Hplans & Hfixed & _).
    rewrite Hrun1 in Hrun. inversion Hrun; subst.
    split; [exact (plans_resolve_frame _ _ Hplans Hfixed Hfk) |].
    rewrite (fixed_part_ids _ _ Hfixed). exact Hnd.
Qed.

(** ** More concrete runs *)

(** Two mounts within the window of one day, as after a reload at 00:02: the
    profit of the day is credited twice. *)
Example reload_credits_twice :
  let first := mount utc_plus_1 toFixed_decimal (midnight + 60000) 0
                 (loaded_at midnight (fun _ => quiet)) in
  let second := mount utc_plus_1 toFixed_decimal (midnight + 120000) 0 (snd (fst first)) in
  balances (backend (snd (fst second))) "user-1" = 540%float
  /\ filter_map balance_request (snd second)
     = [("user-1", 20%float, add); ("user-2", 1%float, add)].
Proof. vm_compute. split; reflexivity. Qed.

Lemma generateDailyProfit_unknown_investment_witness :
  let w := loaded_at (midnight + 60000) (fun _ => quiet) in
  exists e w',
    generateDailyProfit toFixed_decimal "inv-9" 100 2 w
    = (Returned tt, w',
       [Remote (SelectInvestment "inv-9");
        ConsoleError "Error generating daily profit:" e])
    /\ backend w' = backend w.
Proof.
  apply (generateDailyProfit_unknown_investment toFixed_decimal "inv-9" 100 2
           (loaded_at (midnight + 60000) (fun _ => quiet))).
  vm_compute. discriminate.
Defined.

Lemma generateDailyProfit_update_fails_witness :
  let w := loaded_at (midnight + 60000) (failing_at 1) in
  exists w',
    generateDailyProfit toFixed_decimal "inv-1" 1000 2 w
    = (Returned tt, w',
       [Remote (SelectInvestment "inv-1");
        Remote (UpdateInvestment "inv-1"
          (SetProfitEarned (180 + dailyProfit 1000 2)%float));
        ConsoleError "Error generating daily profit:" timeout])
    /\ backend w' = backend w.
Proof.
  apply (generateDailyProfit_update_fails toFixed_decimal "inv-1" 1000 2
           (loaded_at (midnight + 60000) (failing_at 1))
           (embed_plan sample_backend running) timeout);
    try reflexivity.
  vm_compute. discriminate.
Defined.

Lemma generateDailyProfit_notification_unchecked_witness :
  let w := loaded_at (midnight + 60000) (failing_at 3) in
  let row := embed_plan sample_backend running in
  exists w',
    generateDailyProfit toFixed_decimal "inv-1" 1000 2 w
    = (Returned tt, w',
       [Remote (SelectInvestment "inv-1");
        Remote (UpdateInvestment "inv-1"
          (SetProfitEarned (180 + dailyProfit 1000 2)%float));
        Remote (UpdateUserBalance "user-1" (dailyProfit 1000 2) add);
        Remote (SendUserNotification
          (profit_notification toFixed_decimal row starter (dailyProfit 1000 2)));
        ConsoleLog ("Daily profit of $" ++ toFixed_decimal (dailyProfit 1000 2) 2
                    ++ " credited for investment " ++ "inv-1")])
    /\ balances (backend w') "user-1" = (balances (backend w) "user-1" + dailyProfit 1000 2)%float
    /\ notifications (backend w') = notifications (backend w).
Proof.
  apply (generateDailyProfit_notification_unchecked toFixed_decimal "inv-1" 1000 2
           (loaded_at (midnight + 60000) (failing_at 3))
           (embed_plan sample_backend running) starter timeout);
    try reflexivity.
  vm_compute. discriminate.
Defined.

Lemma generateDailyProfit_without_plan_witness :
  let w := loaded_with orphan_backend (midnight + 60000) (fun _ => quiet) in
  exists w',
    generateDailyProfit toFixed_decimal "inv-5" 70 2 w
    = (Returned tt, w',
       [Remote (SelectInvestment "inv-5");
        Remote (UpdateInvestment "inv-5" (SetProfitEarned (0 + dailyProfit 70 2)%float));
        Remote (UpdateUserBalance "user-3" (dailyProfit 70 2) add);
        ConsoleError "Error generating daily profit:"
          (TypeError "Cannot read properties of null")])
    /\ balances (backend w') "user-3" = (balances (backend w) "user-3" + dailyProfit 70 2)%float
    /\ notifications (backend w') = notifications (backend w).
Proof.
  apply (generateDailyProfit_without_plan toFixed_decimal "inv-5" 70 2
           (loaded_with orphan_backend (midnight + 60000) (fun _ => quiet))
           (embed_plan orphan_backend orphan));
    try reflexivity.
  vm_compute. discriminate.
Defined.

(** A check at noon. *)
Lemma check_outside_window_does_nothing_witness :
  let w := loaded_at midnight (fun _ => quiet) in
  at_time (midnight + 43200000)
    (generateProfitsForActiveInvestments utc_plus_1 toFixed_decimal) w
  = (Returned tt, with_clock (midnight + 43200000) w, []).
Proof.
  apply (check_outside_window_does_nothing utc_plus_1 toFixed_decimal (midnight + 43200000)
           (loaded_at midnight (fun _ => quiet))).
  left. reflexivity.
Defined.

(** The investment that ended the day before is still there, and still
    marked active, after the cycle of 00:01. *)
Lemma cycle_leaves_lapsed_investment_witness :
  exists w' tr,
    generateProfitsForActiveInvestments utc_plus_1 toFixed_decimal
      (loaded_at (midnight + 60000) (fun _ => quiet))
    = (Returned tt, w', tr)
    /\ In lapsed (user_investments (backend w'))
    /\ ~ In (Investment.id lapsed) (filter_map started tr).
Proof.
  apply (cycle_leaves_lapsed_investment utc_plus_1 toFixed_decimal
           (loaded_at (midnight + 60000) (fun _ => quiet)) lapsed).
  - right. left. reflexivity.
  - right. reflexivity.
  - intros j [<- | [<- | [<- | []]]] E; try reflexivity; discriminate E.
Defined.

Lemma cycle_stops_at_record_without_plan_witness :
  let w := loaded_with orphan_backend (midnight + 60000) (fun _ => quiet) in
  exists w' processing tr,
    generateProfitsForActiveInvestments utc_plus_1 toFixed_decimal w
    = (Returned tt, w',
       Remote (SelectActiveInvestments (clock w)) :: ConsoleLog processing
       :: (tr ++ [ConsoleError "Error generating profits:"
                    (TypeError "Cannot read properties of null")])%list)
    /\ filter_map started tr = ["inv-1"].
Proof.
  apply (cycle_stops_at_record_without_plan utc_plus_1 toFixed_decimal
           (loaded_with orphan_backend (midnight + 60000) (fun _ => quiet))
           [embed_plan orphan_backend running] [embed_plan orphan_backend other]
           (embed_plan orphan_backend orphan));
    try reflexivity.
  - discriminate.
  - constructor; [discriminate | constructor].
Defined.

(** The clocks of central Europe move by one hour. *)
Lemma central_europe_whole_hours (mounted : Z) (ticks : nat) :
  whole_hour_changes central_europe mounted ticks.
Proof.
  intros k _. unfold central_europe, JSDate.offset_at, JSDate.msPerHour.
  repeat match goal with |- context [if ?c then _ else _] => destruct c end;
    first [exists 0; reflexivity | exists 1; reflexivity | exists (-1); reflexivity].
Qed.

(** Mounted in central Europe at 00:10 on Saturday 24 October 2026 and left
    open for two days, over the night in which summer time ends. *)
Lemma mount_off_the_hour_never_generates_witness :
  let w := loaded_at 1792793400000 (fun _ => quiet) in
  exists w',
    mount central_europe toFixed_decimal 1792793400000 48 w
    = (Returned (map (fun _ => tt) (check_times 1792793400000 48)), w', [])
    /\ backend w' = backend w
    /\ sent w' = sent w
    /\ lastProfitCheckRef w' = None.
Proof.
  apply (mount_off_the_hour_never_generates central_europe toFixed_decimal 1792793400000 48
           (loaded_at 1792793400000 (fun _ => quiet))).
  - vm_compute. discriminate.
  - apply central_europe_whole_hours.
Defined.

(** A hook mounted at 00:02 on a page whose earlier hook fired at 00:01. *)
Lemma mount_inside_window_runs_cycle_witness :
  let w := with_lastProfitCheckRef (Some "Mon Nov 02 2026")
             (loaded_at (midnight + 60000) (fun _ => quiet)) in
  exists w' tr,
    mount utc_plus_1 toFixed_decimal (midnight + 120000) 0 w
    = (Returned [tt], w', Remote (SelectActiveInvestments (midnight + 120000)) :: tr)
    /\ lastProfitCheckRef w'
       = Some (date_string_of_day (local_day utc_plus_1 (midnight + 120000))).
Proof.
  apply (mount_inside_window_runs_cycle utc_plus_1 toFixed_decimal (midnight + 120000)).
  reflexivity.
Defined.

Lemma RecaptchaWrapper_renders_with_site_key_witness :
  let w := loaded_with (enabled_backend "site-key") midnight (fun _ => quiet) in
  (forall loaded present,
     load_effect (settled w loaded present)
     = if present then [] else [AppendScript "https://www.google.com/recaptcha/api.js"])
  /\ (forall loaded present,
        render_effect (settled w loaded present)
        = if loaded && present
          then [RenderWidget "recaptcha-container" "site-key"]
          else []).
Proof.
  apply (RecaptchaWrapper_renders_with_site_key
           (loaded_with (enabled_backend "site-key") midnight (fun _ => quiet))
           {| Recaptcha.site_key := "site-key"; Recaptcha.is_enabled := true |});
    try reflexivity.
  discriminate.
Defined.

Lemma RecaptchaWrapper_enabled_without_key_witness :
  let w := loaded_with (enabled_backend EmptyString) midnight (fun _ => quiet) in
  RecaptchaWrapper (settled w true true) = Some recaptcha_container
  /\ load_effect (settled w true true) = []
  /\ render_effect (settled w true true) = [].
Proof.
  apply (RecaptchaWrapper_enabled_without_key
           (loaded_with (enabled_backend EmptyString) midnight (fun _ => quiet))
           {| Recaptcha.site_key := EmptyString; Recaptcha.is_enabled := true |} true true);
    reflexivity.
Defined.

Lemma activatePlan_books_witness :
  let w := loaded_at (midnight + 36000000) (fun _ => quiet) in
  let w' := snd (fst (activatePlan utc_plus_1 serial_id at_once "plan-1" 250 "user-1" w)) in
  user_investments (backend w') = [running; lapsed; other; activated]
  /\ balances (backend w') "user-1" = 250%float
  /\ sent w' = 3%nat.
Proof.
  pose (w := loaded_at (midnight + 36000000) (fun _ => quiet)).
  pose (run := activatePlan utc_plus_1 serial_id at_once "plan-1" 250 "user-1" w).
  destruct (activatePlan_books utc_plus_1 serial_id at_once "plan-1" 250 "user-1"
              w (snd (fst run)) activated (snd run))
    as (Hrows & _ & _ & _ & _ & Hbal & _ & _ & _ & Hsent).
  - vm_compute. reflexivity.
  - split; [exact Hrows |]. split; [exact Hbal | exact Hsent].
Defined.

(** There is no plan "plan-9". *)
Lemma activatePlan_writes_nothing_before_insert_witness :
  let w := loaded_at (midnight + 36000000) (fun _ => quiet) in
  exists e w' tr,
    activatePlan utc_plus_1 serial_id at_once "plan-9" 250 "user-1" w = (Thrown e, w', tr)
    /\ backend w' = backend w
    /\ filter_map balance_request tr = [].
Proof.
  apply (activatePlan_writes_nothing_before_insert utc_plus_1 serial_id at_once "plan-9" 250 "user-1"
           (loaded_at (midnight + 36000000) (fun _ => quiet))).
  right. left. vm_compute. discriminate.
Defined.

Lemma activatePlan_then_select_witness :
  let w := loaded_at (midnight + 36000000) (fun _ => quiet) in
  let w' := snd (fst (activatePlan utc_plus_1 serial_id at_once "plan-1" 250 "user-1" w)) in
  lookup_investment "inv-4" (backend w') = Some activated
  /\ exists plan,
       fst (serve_select_investment "inv-4" (backend w'))
       = Data {| investment := activated; investment_plans := Some plan |}
       /\ Plan.id plan = "plan-1".
Proof.
  pose (w := loaded_at (midnight + 36000000) (fun _ => quiet)).
  pose (run := activatePlan utc_plus_1 serial_id at_once "plan-1" 250 "user-1" w).
  apply (activatePlan_then_select utc_plus_1 serial_id at_once "plan-1" 250 "user-1"
           w (snd (fst run)) activated (snd run)).
  - vm_compute. reflexivity.
  - intros i [<- | [<- | [<- | []]]]; discriminate.
Defined.

Lemma sample_ids_distinct : NoDup (map Investment.id (user_investments sample_backend)).
Proof.
  repeat constructor; cbn; intuition discriminate.
Qed.

(** The cycle of 00:01 on a network that answers every call in 120 ms. *)
Lemma cycle_credits_every_record_witness :
  exists w' tr,
    generateProfitsForActiveInvestments utc_plus_1 toFixed_decimal
      (loaded_at (midnight + 60000) (fun _ => quiet))
    = (Returned tt, w', tr)
    /\ filter_map balance_request tr
       = [("user-1", 20%float, add); ("user-2", 1%float, add)]
    /\ lookup_investment "inv-1" (backend w')
       = Some (credited (embed_plan sample_backend running))
    /\ balances (backend w') "user-1" = 520%float.
Proof.
  pose (w := loaded_at (midnight + 60000) (fun _ => quiet)).
  destruct (cycle_credits_every_record utc_plus_1 toFixed_decimal
              (midnight + 20 * JSDate.msPerDay) w)
    as (w' & tr & Hrun & Hcredits & Hrows & Hbal).
  - reflexivity.
  - discriminate.
  - intros n Hn.
    do 9 (destruct n as [| n]; [split; [reflexivity | vm_compute; discriminate] |]).
    exfalso. cbn in Hn. lia.
  - exact sample_ids_distinct.
  - exact sample_backend_resolves.
  - intros r [<- | [<- | []]]; vm_compute; discriminate.
  - exists w', tr. split; [exact Hrun |]. split; [exact Hcredits |].
    split; [apply (Hrows (embed_plan sample_backend running)); now left |].
    exact (Hbal "user-1").
Defined.

Lemma hook_keeps_table_well_formed_witness :
  let w := loaded_at (midnight + 60000) (fun _ => quiet) in
  (forall planId amount userId res w' tr,
     (forall i, In i (user_investments (backend w)) ->
                Investment.id i <> serial_id (user_investments (backend w))) ->
     activatePlan utc_plus_1 serial_id at_once planId amount userId w = (res, w', tr) ->
     plans_resolve (backend w')
     /\ NoDup (map Investment.id (user_investments (backend w'))))
  /\ (forall res w' tr,
        generateProfitsForActiveInvestments utc_plus_1 toFixed_decimal w = (res, w', tr) ->
        plans_resolve (backend w')
        /\ NoDup (map Investment.id (user_investments (backend w')))).
Proof.
  apply (hook_keeps_table_well_formed utc_plus_1 serial_id at_once toFixed_decimal
           (loaded_at (midnight + 60000) (fun _ => quiet))).
  - exact sample_backend_resolves.
  - exact sample_ids_distinct.
Defined.
